(** * streaming-video-problem: a shallow embedding of the frame-rate tap,
      the pad-linking callbacks, the OpenCV frame bridge and the discovery
      registry, with the properties of the specification stated over it.

    Python code is embedded as pure functions.  Mutable objects (the probe
    state dictionary, the registry dictionary, pads, buffers) are passed in
    and returned; a raised exception is the [Raised] outcome, and the state
    returned with it is the state the exception leaves behind.  Calls into
    the media engine (GStreamer), OpenCV, [uuid] and [datetime] are external:
    their results are arguments of the embedded functions. *)

From Stdlib Require Import ZArith List Lia Bool.
From Stdlib Require Import Floats.SpecFloat.
From Stdlib Require Import DecimalString.
From stdpp Require Import gmap strings list.

Local Open Scope Z_scope.

(* ===================================================================== *)
(** * Python outcomes *)
(* ===================================================================== *)

(** The exceptions that the embedded code can raise.  [Exception msg] stands
    for an exception raised by an external object (for instance by
    [set_property] of an element), with [str(e) = msg]. *)
Inductive exn : Type :=
  | KeyError (key : string)
  | ZeroDivisionError (msg : string)
  | OverflowError (msg : string)
  | AttributeError (msg : string)
  | TypeError (msg : string)
  | Exception (msg : string).

(** [str(e)] *)
Definition exn_str (e : exn) : string :=
  match e with
  | KeyError k => "'" +:+ k +:+ "'"
  | ZeroDivisionError m | OverflowError m | AttributeError m
  | TypeError m | Exception m => m
  end.

Inductive outcome (A : Type) : Type :=
  | Returned (a : A)
  | Raised (e : exn).
Arguments Returned {A} a.
Arguments Raised {A} e.

Definition obind {A B} (x : outcome A) (k : A -> outcome B) : outcome B :=
  match x with
  | Returned a => k a
  | Raised e => Raised e
  end.

Notation "'try!' x <- c1 ; c2" := (obind c1 (fun x => c2))
  (at level 60, x name, c1 at next level, right associativity).

(* ===================================================================== *)
(** * The discovery registry (task2/discovery/app.py) *)
(* ===================================================================== *)

Module Discovery.

(** JSON values of a request body.  The data model has only strings (and
    JSON [null], Python [None]) in the two request fields; a field can also
    be absent from the object, which is a missing key of [data]. *)
Inductive json : Type :=
  | JNull
  | JStr (s : string).

Definition is_None (v : json) : bool :=
  match v with JNull => true | JStr _ => false end.

(** [data[key]] on the dictionary that [request.get_json()] returns. *)
Definition getitem (data : gmap string json) (key : string) : outcome json :=
  match data !! key with
  | Some v => Returned v
  | None => Raised (KeyError key)
  end.

(** The dictionary stored per broadcaster.  [created_at] is the value of
    [datetime.datetime.now(datetime.timezone.utc)], taken from the clock. *)
Record BroadcastRecord : Type := mkRecord {
  broadcaster_id : json;
  stream_url : json;
  status : string;
  created_at : Z
}.

(** What [jsonify] is applied to. *)
Inductive body : Type :=
  | ErrorBody (error : string)          (* jsonify({"error": ...}) *)
  | RecordBody (r : BroadcastRecord)    (* jsonify(broadcasts[id]) *)
  | ListBody (rs : list BroadcastRecord)(* jsonify(list(...)) *)
  | EmptyBody.                          (* jsonify({}) *)

(** A view's return value: [(jsonify(...), status)]. *)
Definition response : Type := body * Z.

(** The module-level dictionary [broadcasts].  Its keys are the strings
    [broadcaster_id]; the iteration order of a Python dict is not kept. *)
Abbreviation registry := (gmap string BroadcastRecord).

Section Handlers.
(** [uuid.uuid4().hex[:8]] and the clock reading of this request. *)
Variable uuid_hex8 : string.
Variable now : Z.

Definition register_broadcast (data : gmap string json) (broadcasts : registry)
  : outcome response * registry :=
  match getitem data "stream_url" with
  | Raised e => (Raised e, broadcasts)
  | Returned url =>
    if is_None url then
      (Returned (ErrorBody "Missing stream_url", 400), broadcasts)
    else
      match getitem data "broadcaster_id" with
      | Raised e => (Raised e, broadcasts)
      | Returned given =>
        let broadcaster_id :=
          match given with
          | JNull => "broadcaster-" +:+ uuid_hex8
          | JStr s => s
          end in
        let broadcasts' :=
          <[ broadcaster_id :=
             {| broadcaster_id := given;
                stream_url := url;
                status := "active";
                created_at := now |} ]> broadcasts in
        match broadcasts' !! broadcaster_id with
        | Some r => (Returned (RecordBody r, 201), broadcasts')
        | None => (Raised (KeyError broadcaster_id), broadcasts')
        end
      end
  end.
End Handlers.

Definition list_broadcasts (broadcasts : registry) : response :=
  (ListBody (map snd (map_to_list broadcasts)), 200).

Definition delete_broadcast (broadcaster_id : string) (broadcasts : registry)
  : response * registry :=
  match broadcasts !! broadcaster_id with
  | None => ((ErrorBody "Broadcaster not found", 404), broadcasts)
  | Some _ => ((EmptyBody, 204), delete broadcaster_id broadcasts)
  end.

(** What the HTTP layer under Flask puts on the wire for a view's return
    value: a response with a status 1xx, 204 or 304 carries no content. *)
Definition sent_body (r : response) : option body :=
  let '(b, status) := r in
  if ((100 <=? status) && (status <? 200)) || (status =? 204) || (status =? 304)
  then None else Some b.

(** The JSON object [{"broadcaster_id": id, "stream_url": url}]. *)
Definition request (id url : json) : gmap string json :=
  <[ "broadcaster_id" := id ]> (<[ "stream_url" := url ]> ∅).

End Discovery.

(* ===================================================================== *)
(** * Python numbers: true division and one-decimal formatting *)
(* ===================================================================== *)

Module PyFloat.

(** A Python [float] is an IEEE 754 binary64 value. *)
Definition prec : Z := 53.
Definition emax : Z := 1024.
Abbreviation float := spec_float.

Definition zero : float := S754_zero false.   (* the literal 0.0 *)

(** An integer as an exact (unrounded) operand of a division. *)
Definition of_int_exact (z : Z) : float :=
  match z with
  | Z0 => S754_zero false
  | Zpos p => S754_finite false p 0
  | Zneg p => S754_finite true p 0
  end.

(** [a / b] on Python ints: ZeroDivisionError for [b = 0], otherwise the
    quotient of the two integers rounded once, to nearest even;
    OverflowError when the rounded quotient is not a finite float. *)
Definition int_truediv (a b : Z) : outcome float :=
  if b =? 0 then Raised (ZeroDivisionError "division by zero")
  else
    match SFdiv prec emax (of_int_exact a) (of_int_exact b) with
    | S754_infinity _ =>
        Raised (OverflowError "integer division result too large for a float")
    | q => Returned q
    end.

Definition is_finite (f : float) : bool :=
  match f with
  | S754_zero _ | S754_finite _ _ _ => true
  | S754_infinity _ | S754_nan => false
  end.

Definition sign_bit (f : float) : bool :=
  match f with
  | S754_zero s | S754_infinity s | S754_finite s _ _ => s
  | S754_nan => false
  end.

(** [f < 0.0] *)
Definition is_negative (f : float) : bool := SFltb f zero.

(** [str(n)] for a natural number. *)
Definition dec (n : Z) : string := NilZero.string_of_uint (N.to_uint (Z.to_N n)).

(** The number of tenths nearest to [m * 2^e], ties to even: the digits
    that the format specification [.1f] prints. *)
Definition tenths (m : positive) (e : Z) : Z :=
  match e with
  | Zneg k =>
      let den := 2 ^ Zpos k in
      let num := Zpos m * 10 in
      let q := num / den in
      let r := num mod den in
      match 2 * r ?= den with
      | Lt => q
      | Gt => q + 1
      | Eq => if Z.even q then q else q + 1
      end
  | _ => Zpos m * 2 ^ e * 10
  end.

(** [f"{x:.1f}"] *)
Definition format_1f (x : float) : string :=
  match x with
  | S754_nan => "nan"
  | S754_infinity s => (if s then "-" else "") +:+ "inf"
  | S754_zero s => (if s then "-" else "") +:+ "0.0"
  | S754_finite s m e =>
      let t := tenths m e in
      (if s then "-" else "") +:+ dec (t / 10) +:+ "." +:+ dec (t mod 10)
  end.

End PyFloat.

(* ===================================================================== *)
(** * The media engine boundary (gi.repository.Gst) *)
(* ===================================================================== *)

Module Gst.

(** [Gst.CLOCK_TIME_NONE], the [guint64] value [2^64 - 1]. *)
Definition CLOCK_TIME_NONE : Z := 18446744073709551615.

(** A [guint64] field such as [buffer.pts]. *)
Definition is_guint64 (z : Z) : Prop := 0 <= z <= 18446744073709551615.

(** A block of bytes in memory, named by its address. *)
Abbreviation loc := nat.

(** [Gst.Buffer]: the memory it wraps and its metadata fields. *)
Record Buffer : Type := mkBuffer {
  memory : loc;
  pts : Z;
  dts : Z;
  duration : Z;
  offset : Z
}.

(** [Gst.BUFFER_OFFSET_NONE] *)
Definition BUFFER_OFFSET_NONE : Z := 18446744073709551615.

(** [Gst.Caps]: the name of structure 0, the rest of the text that
    [to_string()] prints after it, and the two integer fields the bridge
    reads from structure 0. *)
Record Caps : Type := mkCaps {
  structure_name : string;
  structure_fields : string;
  height : Z;
  width : Z
}.

Definition to_string (c : Caps) : string :=
  structure_name c +:+ structure_fields c.

#[global] Instance Caps_eq_dec : EqDecision Caps.
Proof. solve_decision. Defined.

(** [caps.is_equal(other)] *)
Definition is_equal (c1 c2 : Caps) : bool := bool_decide (c1 = c2).

Inductive PadProbeReturn : Type :=
  | PAD_PROBE_DROP | PAD_PROBE_OK | PAD_PROBE_REMOVE
  | PAD_PROBE_PASS | PAD_PROBE_HANDLED.

Inductive FlowReturn : Type :=
  | FLOW_OK | FLOW_NOT_LINKED | FLOW_FLUSHING | FLOW_EOS
  | FLOW_NOT_NEGOTIATED | FLOW_ERROR | FLOW_NOT_SUPPORTED.

Inductive PadLinkReturn : Type :=
  | PAD_LINK_OK | PAD_LINK_WRONG_HIERARCHY | PAD_LINK_WAS_LINKED
  | PAD_LINK_WRONG_DIRECTION | PAD_LINK_NOFORMAT | PAD_LINK_NOSCHED
  | PAD_LINK_REFUSED.

End Gst.

(* ===================================================================== *)
(** * The frame-rate tap of task2 (broadcaster and consumer) *)
(* ===================================================================== *)

Module FpsProbe.
Import PyFloat Gst.

(** The dictionary [probe_state].  It is created with the two keys
    ['previous_pts'] and ['current_fps'] and the callback uses exactly
    these two keys, so it is kept as a record. *)
Record ProbeState : Type := mkProbeState {
  previous_pts : Z;
  current_fps : float
}.

(** [{'previous_pts': Gst.CLOCK_TIME_NONE, 'current_fps': 0.0}] *)
Definition fresh_state : ProbeState :=
  {| previous_pts := CLOCK_TIME_NONE; current_fps := zero |}.

(** What the callback does to the outside: the calls of
    [set_property(name, value)] on the overlay element, and the lines
    printed to [sys.stderr]. *)
Inductive event : Type :=
  | SetProperty (name value : string)
  | Stderr (line : string).

(** The [except Exception as e] clause of the tap callbacks. *)
Definition reported (raised : option exn) : list event :=
  match raised with
  | Some e => [Stderr ("Error setting textoverlay property: " +:+ exn_str e)]
  | None => []
  end.

Section Tap.
(** The overlay element is an object of the engine: its state is opaque
    and [set_property] returns the element's next state and the exception
    it raised, if any. *)
Context {Overlay : Type}.
Variable set_property : Overlay -> string -> string -> Overlay * option exn.
(** ["Broadcast FPS: "] in the broadcaster, ["Consumer FPS: "] in the
    consumer. *)
Variable label : string.

Record world : Type := mkWorld {
  probe_state : ProbeState;
  textoverlay_element : Overlay;
  trace : list event
}.

(** Lines 32-40: the rate and the exception of the division. *)
Definition next_fps (st : ProbeState) (current_pts_ns : Z) : outcome float :=
  if negb (previous_pts st =? CLOCK_TIME_NONE) then
    let delta_ns := current_pts_ns - previous_pts st in
    int_truediv 1000000000 delta_ns
  else
    Returned zero.

Definition probe_callback_body (info : option Buffer) (w : world)
  : outcome PadProbeReturn * world :=
  match info with
  | None => (Returned PAD_PROBE_OK, w)
  | Some buffer =>
    let current_pts_ns := pts buffer in
    match next_fps (probe_state w) current_pts_ns with
    | Raised e => (Raised e, w)
    | Returned fps =>
      let st := {| previous_pts := current_pts_ns; current_fps := fps |} in
      let fps_display_text := label +:+ format_1f (current_fps st) in
      let called := trace w ++ [SetProperty "text" fps_display_text] in
      (* try: set_property(...)  except Exception as e: print(..., stderr) *)
      let '(ov, raised) :=
        set_property (textoverlay_element w) "text" fps_display_text in
      (Returned PAD_PROBE_OK,
       {| probe_state := st; textoverlay_element := ov;
          trace := called ++ reported raised |})
    end
  end.

(** The engine delivering a sequence of probe infos to a callback, one
    after the other, each call on the state the previous call left (an
    exception leaves the state it was raised in). *)
Fixpoint deliver
    (callback : option Buffer -> world -> outcome PadProbeReturn * world)
    (infos : list (option Buffer)) (w : world)
  : list (outcome PadProbeReturn) * world :=
  match infos with
  | [] => ([], w)
  | info :: rest =>
      let '(r, w1) := callback info w in
      let '(rs, w2) := deliver callback rest w1 in
      (r :: rs, w2)
  end.

(** The texts handed to the overlay, in order. *)
Definition labels (tr : list event) : list string :=
  omap (fun ev => match ev with
                  | SetProperty "text" v => Some v
                  | _ => None
                  end) tr.
End Tap.

Arguments world : clear implicits.
Arguments mkWorld {Overlay}.
Arguments deliver {Overlay} callback infos w.

(** A buffer carrying the timestamp [t]; the other fields are unset. *)
Definition buffer_at (t : Z) : Buffer :=
  {| memory := 0%nat; pts := t; dts := CLOCK_TIME_NONE;
     duration := CLOCK_TIME_NONE; offset := CLOCK_TIME_NONE |}.

Definition frames (ts : list Z) : list (option Buffer) :=
  map (fun t => Some (buffer_at t)) ts.

(** The timestamps of the buffers in a sequence of probe infos. *)
Definition timestamps (infos : list (option Buffer)) : list Z :=
  omap (fun info => match info with Some b => Some (pts b) | None => None end)
       infos.

(** The rates the specification asks for: 0.0 after the first timestamp,
    then [1e9 / (t_i - t_(i-1))]. *)
Fixpoint spec_rates_after (prev : Z) (ts : list Z) : list (outcome float) :=
  match ts with
  | [] => []
  | t :: rest => int_truediv 1000000000 (t - prev) :: spec_rates_after t rest
  end.

Definition spec_rates (ts : list Z) : list (outcome float) :=
  match ts with
  | [] => []
  | t1 :: rest => Returned zero :: spec_rates_after t1 rest
  end.

Fixpoint strictly_increasing (ts : list Z) : Prop :=
  match ts with
  | [] => True
  | t :: rest =>
      match rest with
      | [] => True
      | u :: _ => t < u
      end /\ strictly_increasing rest
  end.

Fixpoint non_decreasing (ts : list Z) : Prop :=
  match ts with
  | [] => True
  | t :: rest =>
      match rest with
      | [] => True
      | u :: _ => t <= u
      end /\ non_decreasing rest
  end.

(** A rate that is a number and is not negative. *)
Definition rate_ok (q : float) : Prop := is_finite q = true /\ sign_bit q = false.

(** Two overlays to run the callback on: one that accepts every property,
    remembering the last text, and one whose [set_property] always raises. *)
Definition accepting_overlay (ov : string) (name value : string)
  : string * option exn := (value, None).

Definition failing_overlay (ov : string) (name value : string)
  : string * option exn := (ov, Some (Exception "no property text")).

End FpsProbe.

Module Broadcaster.
Import Gst FpsProbe.

(** task2/broadcaster/video_broadcast.py, [probe_callback]. *)
Definition probe_callback {Overlay}
    (set_property : Overlay -> string -> string -> Overlay * option exn) :=
  probe_callback_body set_property "Broadcast FPS: ".

End Broadcaster.

Module Consumer.
Import Gst FpsProbe.

(** task2/consumer/video_consumer.py, [probe_callback]. *)
Definition probe_callback {Overlay}
    (set_property : Overlay -> string -> string -> Overlay * option exn) :=
  probe_callback_body set_property "Consumer FPS: ".

End Consumer.

(* ===================================================================== *)
(** * Dynamically typed dictionary values (task1, module-level state) *)
(* ===================================================================== *)

Module PyVal.
Import PyFloat.

(** The values held by the module-level dictionary [fps_probe_state]. *)
Inductive pyval : Type :=
  | PyInt (z : Z)
  | PyFloatV (f : float).

(** [float(z)]: rounded to nearest even, OverflowError when out of range. *)
Definition of_int (z : Z) : outcome float :=
  match binary_normalize prec emax z 0 false with
  | S754_infinity _ => Raised (OverflowError "int too large to convert to float")
  | f => Returned f
  end.

(** [f == n] for a float and an int, compared exactly. *)
Definition float_eq_int (f : float) (n : Z) : bool :=
  match f with
  | S754_zero _ => n =? 0
  | S754_finite s m e =>
      let v := if s then Zneg m else Zpos m in
      match e with
      | Zneg k => v =? n * 2 ^ Zpos k
      | _ => v * 2 ^ e =? n
      end
  | S754_infinity _ | S754_nan => false
  end.

(** [v != n] *)
Definition ne_int (v : pyval) (n : Z) : bool :=
  match v with
  | PyInt z => negb (z =? n)
  | PyFloatV f => negb (float_eq_int f n)
  end.

(** [a - v] for an int [a] *)
Definition int_sub (a : Z) (v : pyval) : outcome pyval :=
  match v with
  | PyInt z => Returned (PyInt (a - z))
  | PyFloatV f =>
      try! x <- of_int a; Returned (PyFloatV (SFsub prec emax x f))
  end.

(** [a / v] for an int [a] *)
Definition int_div (a : Z) (v : pyval) : outcome pyval :=
  match v with
  | PyInt z => try! q <- int_truediv a z; Returned (PyFloatV q)
  | PyFloatV f =>
      try! x <- of_int a;
      match f with
      | S754_zero _ => Raised (ZeroDivisionError "float division by zero")
      | _ => Returned (PyFloatV (SFdiv prec emax x f))
      end
  end.

(** [f"{v:.1f}"] *)
Definition format_1f_val (v : pyval) : outcome string :=
  match v with
  | PyInt z => try! x <- of_int z; Returned (format_1f x)
  | PyFloatV f => Returned (format_1f f)
  end.

(** [d[key]] *)
Definition getitem (d : gmap string pyval) (key : string) : outcome pyval :=
  match d !! key with
  | Some v => Returned v
  | None => Raised (KeyError key)
  end.

End PyVal.

(* ===================================================================== *)
(** * The frame-rate tap of task1/video_consumer_with_opencv.py *)
(* ===================================================================== *)

Module OpenCVTap.
Import PyFloat PyVal Gst FpsProbe.

(** [fps_probe_state = {'prev_pts': Gst.CLOCK_TIME_NONE, 'current_fps': 0.0}].
    The callback subscripts this dictionary with the keys it names, so it is
    kept as a finite map. *)
Definition initial_fps_probe_state : gmap string pyval :=
  <[ "prev_pts" := PyInt CLOCK_TIME_NONE ]>
    (<[ "current_fps" := PyFloatV zero ]> ∅).

Section Tap.
Context {Overlay : Type}.
Variable set_property : Overlay -> string -> string -> Overlay * option exn.

(** The module globals the callback uses. *)
Record globals : Type := mkGlobals {
  fps_probe_state : gmap string pyval;
  textoverlay : option Overlay;
  trace : list event
}.

Definition with_state (g : globals) (d : gmap string pyval) : globals :=
  {| fps_probe_state := d; textoverlay := textoverlay g; trace := trace g |}.

Definition fps_probe_callback (info : option Buffer) (g : globals)
  : outcome PadProbeReturn * globals :=
  match info, textoverlay g with
  | None, _ | _, None => (Returned PAD_PROBE_OK, g)
  | Some buffer, Some ov =>
    let current_pts := pts buffer in
    (* if fps_probe_state['previous_pts'] != Gst.CLOCK_TIME_NONE: ... *)
    let branch : outcome (gmap string pyval) :=
      try! previous <- getitem (fps_probe_state g) "previous_pts";
      if ne_int previous CLOCK_TIME_NONE then
        try! prev <- getitem (fps_probe_state g) "prev_pts";
        try! delta_ns <- int_sub current_pts prev;
        try! fps <- int_div 1000000000 delta_ns;
        Returned (<[ "current_fps" := fps ]> (fps_probe_state g))
      else
        Returned (<[ "current_fps" := PyFloatV zero ]> (fps_probe_state g)) in
    match branch with
    | Raised e => (Raised e, g)
    | Returned d1 =>
      let d2 := <[ "prev_pts" := PyInt current_pts ]> d1 in
      match (try! fps <- getitem d2 "current_fps"; format_1f_val fps) with
      | Raised e => (Raised e, with_state g d2)
      | Returned shown =>
        let fps_display_text := "FPS: " +:+ shown in
        let called := trace g ++ [SetProperty "text" fps_display_text] in
        let '(ov', raised) := set_property ov "text" fps_display_text in
        (Returned PAD_PROBE_OK,
         {| fps_probe_state := d2; textoverlay := Some ov';
            trace := called ++ reported raised |})
      end
    end
  end.
End Tap.

Arguments globals : clear implicits.
Arguments mkGlobals {Overlay}.

End OpenCVTap.

(* ===================================================================== *)
(** * Deferred pad linking (decodebin's "pad-added") *)
(* ===================================================================== *)

Module PadAdded.
Import Gst.

(** [Gst.Pad]: its name, the name of the element owning it, the caps that
    [get_current_caps()] and [query_caps(None)] return, and the pad it is
    linked to. *)
Record Pad : Type := mkPad {
  pad_name : string;
  parent_name : string;
  current_caps : option Caps;
  queried_caps : option Caps;
  peer : option string
}.

Definition is_linked (p : Pad) : bool :=
  match peer p with Some _ => true | None => false end.

Definition with_peer (p : Pad) (q : option string) : Pad :=
  {| pad_name := pad_name p; parent_name := parent_name p;
     current_caps := current_caps p; queried_caps := queried_caps p;
     peer := q |}.

(** The text an f-string prints for a value of the enumeration. *)
Definition str_PadLinkReturn (r : PadLinkReturn) : string :=
  match r with
  | PAD_LINK_OK => "<enum GST_PAD_LINK_OK of type Gst.PadLinkReturn>"
  | PAD_LINK_WRONG_HIERARCHY => "<enum GST_PAD_LINK_WRONG_HIERARCHY of type Gst.PadLinkReturn>"
  | PAD_LINK_WAS_LINKED => "<enum GST_PAD_LINK_WAS_LINKED of type Gst.PadLinkReturn>"
  | PAD_LINK_WRONG_DIRECTION => "<enum GST_PAD_LINK_WRONG_DIRECTION of type Gst.PadLinkReturn>"
  | PAD_LINK_NOFORMAT => "<enum GST_PAD_LINK_NOFORMAT of type Gst.PadLinkReturn>"
  | PAD_LINK_NOSCHED => "<enum GST_PAD_LINK_NOSCHED of type Gst.PadLinkReturn>"
  | PAD_LINK_REFUSED => "<enum GST_PAD_LINK_REFUSED of type Gst.PadLinkReturn>"
  end.

Definition link_ok (r : PadLinkReturn) : bool :=
  match r with PAD_LINK_OK => true | _ => false end.

Inductive event : Type :=
  | Stdout (line : string)
  | Stderr (line : string)
  | LinkCall (src sink : string) (ret : PadLinkReturn).

Definition stderr_lines (tr : list event) : list string :=
  omap (fun ev => match ev with Stderr l => Some l | _ => None end) tr.

(** The calls of [pad.link] that returned [Gst.PadLinkReturn.OK]. *)
Definition successful_links (tr : list event) : list (string * string) :=
  omap (fun ev => match ev with
                  | LinkCall a b PAD_LINK_OK => Some (a, b)
                  | _ => None
                  end) tr.

Section Engine.
(** The engine's decision on linking two pads that are both free
    (hierarchy, direction, caps compatibility, scheduling). *)
Variable negotiate : Pad -> Pad -> PadLinkReturn.

(** [src.link(sink)]: refused with [WAS_LINKED] when either pad already
    has a peer; on [OK] the two pads become each other's peer, otherwise
    nothing changes. *)
Definition pad_link (src sink : Pad) : PadLinkReturn * (Pad * Pad) :=
  if is_linked src || is_linked sink then (PAD_LINK_WAS_LINKED, (src, sink))
  else
    match negotiate src sink with
    | PAD_LINK_OK =>
        (PAD_LINK_OK,
         (with_peer src (Some (pad_name sink)),
          with_peer sink (Some (pad_name src))))
    | r => (r, (src, sink))
    end.

(** The lines the two callbacks share: announce, link, report a link
    that did not return [OK] on [sys.stderr]. *)
Definition link_and_report (pad target : Pad) (announce : string)
  : outcome unit * (Pad * Pad) * list event :=
  let '(ret, pads) := pad_link pad target in
  (Returned tt, pads,
   [Stdout announce; LinkCall (pad_name pad) (pad_name target) ret] ++
   (if link_ok ret then []
    else [Stderr ("ERROR: Failed to link decodebin video pad: "
                  +:+ str_PadLinkReturn ret)])).

(** task2/broadcaster/video_broadcast.py, [on_pad_added_for_file]. *)
Definition on_pad_added_for_file (element : string) (pad target_pad : Pad)
  : outcome unit * (Pad * Pad) * list event :=
  let dynamic :=
    Stdout ("Dynamic pad '" +:+ pad_name pad +:+ "' added by '"
            +:+ element +:+ "'") in
  if is_linked pad then
    (Returned tt, (pad, target_pad), [dynamic; Stdout "Pad already linked."])
  else
    let caps := queried_caps pad in
    if match caps with
       | Some c => String.prefix "video/x-raw" (to_string c)
       | None => false
       end
    then
      let '(r, pads, out) :=
        link_and_report pad target_pad "Linking video pad to queue sink..." in
      (r, pads, dynamic :: out)
    else
      (Returned tt, (pad, target_pad),
       [dynamic;
        Stdout ("Ignoring non-raw-video pad: " +:+
                match caps with Some c => to_string c | None => "None" end)]).

(** task1/video_consumer_with_opencv.py, [on_pad_added]. *)
Definition on_pad_added (element : string) (pad target_sink_pad : Pad)
  : outcome unit * (Pad * Pad) * list event :=
  let dynamic :=
    Stdout ("Dynamic pad '" +:+ pad_name pad +:+ "' added by '"
            +:+ element +:+ "'") in
  if is_linked pad then
    (Returned tt, (pad, target_sink_pad),
     [dynamic; Stdout "Pad already linked. Ignoring."])
  else
    match current_caps pad with
    | None =>
        (Raised (AttributeError
                   "'NoneType' object has no attribute 'get_structure'"),
         (pad, target_sink_pad), [dynamic])
    | Some caps =>
        let name := structure_name caps in
        if String.prefix "video/x-raw" name then
          let '(r, pads, out) :=
            link_and_report pad target_sink_pad
              ("Linking video pad to " +:+ parent_name target_sink_pad
               +:+ "'s sink pad") in
          (r, pads, dynamic :: out)
        else
          (Returned tt, (pad, target_sink_pad),
           [dynamic; Stdout ("Ignoring non-raw-video pad: " +:+ name)])
    end.
End Engine.

(** The media type as each callback reads it: [on_pad_added_for_file] tests
    the text of [query_caps(None)] and takes a pad without caps as not
    video; [on_pad_added] tests the name of structure 0 of the current
    caps. *)
Definition raw_video_for_file (pad : Pad) : option bool :=
  Some match queried_caps pad with
       | Some c => String.prefix "video/x-raw" (to_string c)
       | None => false
       end.

Definition raw_video_current (pad : Pad) : option bool :=
  match current_caps pad with
  | Some c => Some (String.prefix "video/x-raw" (structure_name c))
  | None => None
  end.

Definition link_calls (tr : list event) : list (string * string * PadLinkReturn) :=
  omap (fun ev => match ev with
                  | LinkCall a b r => Some (a, b, r)
                  | _ => None
                  end) tr.

(** What a pad-added handler does for one pad, by cases: a pad that is not
    raw video is left alone; a free raw-video pad is handed to the engine's
    [link] once and is linked exactly when the engine answers [OK]; a
    linked pad is left alone; and once a link was accepted, a second
    invocation for the same pad adds neither a link nor an error. *)
Definition pad_added_contract
    (negotiate : Pad -> Pad -> PadLinkReturn)
    (handler : string -> Pad -> Pad -> outcome unit * (Pad * Pad) * list event)
    (raw_video : Pad -> option bool) : Prop :=
  forall element pad target,
    let '(r, pads, out) := handler element pad target in
    (is_linked pad = false -> raw_video pad = Some false ->
       r = Returned tt /\ pads = (pad, target) /\
       link_calls out = [] /\ stderr_lines out = []) /\
    (is_linked pad = false -> raw_video pad = Some true ->
       let '(ret, linked) := pad_link negotiate pad target in
       r = Returned tt /\ pads = linked /\
       link_calls out = [(pad_name pad, pad_name target, ret)] /\
       (ret = PAD_LINK_OK ->
          peer (fst pads) = Some (pad_name target) /\
          peer (snd pads) = Some (pad_name pad) /\ stderr_lines out = []) /\
       (ret <> PAD_LINK_OK -> pads = (pad, target) /\ stderr_lines out <> [])) /\
    (is_linked pad = true ->
       r = Returned tt /\ pads = (pad, target) /\
       link_calls out = [] /\ stderr_lines out = []) /\
    (is_linked pad = false -> raw_video pad = Some true ->
       fst (pad_link negotiate pad target) = PAD_LINK_OK ->
       let '(r2, pads2, out2) := handler element (fst pads) (snd pads) in
       r2 = Returned tt /\ pads2 = pads /\
       successful_links (out ++ out2) = [(pad_name pad, pad_name target)] /\
       stderr_lines (out ++ out2) = []).

(** Pads and engines to run the callbacks on. *)
Definition raw_video_caps : Caps :=
  {| structure_name := "video/x-raw";
     structure_fields := ", format=(string)I420, width=(int)640, height=(int)480";
     height := 480; width := 640 |}.

Definition audio_caps : Caps :=
  {| structure_name := "audio/x-raw";
     structure_fields := ", format=(string)S16LE, rate=(int)44100";
     height := 0; width := 0 |}.

Definition src_pad (c : Caps) : Pad :=
  {| pad_name := "src_0"; parent_name := "decoder";
     current_caps := Some c; queried_caps := Some c; peer := None |}.

Definition queue_sink : Pad :=
  {| pad_name := "sink"; parent_name := "queue";
     current_caps := None; queried_caps := None; peer := None |}.

Definition accept_all (src sink : Pad) : PadLinkReturn := PAD_LINK_OK.

(** A second video stream of the file, and the queue's sink pad once the
    first stream was linked to it. *)
Definition second_src_pad : Pad :=
  {| pad_name := "src_1"; parent_name := "decoder";
     current_caps := Some raw_video_caps; queried_caps := Some raw_video_caps;
     peer := None |}.

Definition taken_queue_sink : Pad := with_peer queue_sink (Some "src_0").

End PadAdded.

(* ===================================================================== *)
(** * The frame bridge of task1/video_consumer_with_opencv.py *)
(* ===================================================================== *)

Module Bridge.
Import Gst.

Abbreviation bytes := (list Byte.byte).

(** Memory: blocks of bytes by address.  Buffers, NumPy arrays and [bytes]
    objects refer to blocks, so two objects can share one block. *)
Abbreviation heap := (gmap loc bytes).

Definition block (h : heap) (l : loc) : bytes := default [] (h !! l).

(** A new block, at an address not in use. *)
Definition alloc (h : heap) (content : bytes) : loc * heap :=
  let l := fresh (dom h) in (l, <[ l := content ]> h).

(** [numpy.ndarray] of [dtype=uint8]: the block it views and its shape
    [(rows, cols, channels)].  The array covers the first
    [rows * cols * channels] bytes of the block. *)
Record ndarray : Type := mkArray {
  base : loc;
  rows : Z;
  cols : Z;
  channels : Z
}.

Definition size (a : ndarray) : nat := Z.to_nat (rows a * cols a * channels a).

Definition pixels (h : heap) (a : ndarray) : bytes := take (size a) (block h (base a)).

(** An in-place write of the array's elements. *)
Definition store (h : heap) (a : ndarray) (new : bytes) : heap :=
  <[ base a := take (size a) new ++ drop (size a) (block h (base a)) ]> h.

(** [np.ndarray(shape, buffer=data, dtype=np.uint8)]: a view of [data]. *)
Definition np_ndarray (h : heap) (shape : Z * Z * Z) (data : loc)
  : outcome ndarray :=
  let '(r, c, ch) := shape in
  if (r <? 0) || (c <? 0) || (ch <? 0) then
    Raised (Exception "negative dimensions are not allowed")
  else if (Z.of_nat (length (block h data)) <? r * c * ch) then
    Raised (TypeError "buffer is too small for requested array")
  else
    Returned {| base := data; rows := r; cols := c; channels := ch |}.

(** [a.copy()]: a new array on a new block. *)
Definition copy (h : heap) (a : ndarray) : ndarray * heap :=
  let '(l, h') := alloc h (pixels h a) in
  ({| base := l; rows := rows a; cols := cols a; channels := channels a |}, h').

(** [a.tobytes()]: a new [bytes] object. *)
Definition tobytes (h : heap) (a : ndarray) : loc * heap :=
  alloc h (pixels h a).

Definition MIN_CONTOUR_AREA : Z := 500.

Section OpenCV.
(** OpenCV, as far as [process_frame_opencv] uses it.  [red_contours] is
    [cvtColor], the two [inRange] masks, [bitwise_or] and [findContours];
    [area_gt c n] is [cv2.contourArea(c) > n]; [rectangle] gives the
    pixels that [cv2.rectangle] leaves in the image it draws on. *)
Variable contour : Type.
Variable red_contours : bytes -> Z * Z * Z -> list contour.
Variable area_gt : contour -> Z -> bool.
Variable boundingRect : contour -> Z * Z * Z * Z.
Variable rectangle :
  bytes -> Z * Z * Z -> Z * Z -> Z * Z -> Z * Z * Z -> Z -> bytes.

Definition shape (a : ndarray) : Z * Z * Z := (rows a, cols a, channels a).

(** Draws on [frame] itself and returns [frame]. *)
Definition process_frame_opencv (h : heap) (frame : ndarray) : ndarray * heap :=
  let contours := red_contours (pixels h frame) (shape frame) in
  (frame,
   fold_left
     (fun h1 c =>
        if area_gt c MIN_CONTOUR_AREA then
          let '(x, y, w, hh) := boundingRect c in
          store h1 frame
            (rectangle (pixels h1 frame) (shape frame)
               (x, y) (x + w, y + hh) (0, 255, 0) 2)
        else h1)
     contours h).

Record Sample : Type := mkSample {
  sample_buffer : Buffer;
  sample_caps : option Caps
}.

(** The [appsrc] element: the caps it was configured with. *)
Record AppSrc : Type := mkAppSrc {
  src_caps : option Caps
}.

Inductive event : Type :=
  | Stdout (line : string)
  | Stderr (line : string)
  | PushBuffer (b : Buffer) (ret : FlowReturn).

(** The module globals [appsrc] and [last_caps], the memory, and what
    the callback did to the outside. *)
Record globals : Type := mkGlobals {
  mem : heap;
  appsrc : option AppSrc;
  last_caps : option Caps;
  trace : list event
}.

(** The text an f-string prints for a value of the enumeration. *)
Definition str_FlowReturn (r : FlowReturn) : string :=
  match r with
  | FLOW_OK => "<enum GST_FLOW_OK of type Gst.FlowReturn>"
  | FLOW_NOT_LINKED => "<enum GST_FLOW_NOT_LINKED of type Gst.FlowReturn>"
  | FLOW_FLUSHING => "<enum GST_FLOW_FLUSHING of type Gst.FlowReturn>"
  | FLOW_EOS => "<enum GST_FLOW_EOS of type Gst.FlowReturn>"
  | FLOW_NOT_NEGOTIATED => "<enum GST_FLOW_NOT_NEGOTIATED of type Gst.FlowReturn>"
  | FLOW_ERROR => "<enum GST_FLOW_ERROR of type Gst.FlowReturn>"
  | FLOW_NOT_SUPPORTED => "<enum GST_FLOW_NOT_SUPPORTED of type Gst.FlowReturn>"
  end.

Definition flow_ok (r : FlowReturn) : bool :=
  match r with FLOW_OK => true | _ => false end.

(** [Gst.Buffer.new_wrapped(data)] *)
Definition new_wrapped (data : loc) : Buffer :=
  {| memory := data; pts := CLOCK_TIME_NONE; dts := CLOCK_TIME_NONE;
     duration := CLOCK_TIME_NONE; offset := BUFFER_OFFSET_NONE |}.

(** Lines 66-70: remember the caps when they change, and configure
    [appsrc] with them. *)
Definition update_caps (caps : Caps) (g : globals) : globals :=
  if match last_caps g with
     | None => true
     | Some last => negb (is_equal caps last)
     end
  then
    {| mem := mem g;
       appsrc := match appsrc g with
                 | Some _ => Some {| src_caps := Some caps |}
                 | None => None
                 end;
       last_caps := Some caps;
       trace := trace g ++
                [Stdout ("Updating appsrc caps to: " +:+ to_string caps)] |}
  else g.

(** Lines 92-106: wrap the processed frame, copy the metadata, push. *)
Definition push_processed (buffer : Buffer) (processed_frame : ndarray)
    (push_ret : FlowReturn) (g : globals) : globals :=
  match appsrc g with
  | None => g
  | Some _ =>
    let '(data, h) := tobytes (mem g) processed_frame in
    let new_buffer := new_wrapped data in
    let new_buffer :=
      {| memory := memory new_buffer; pts := pts buffer;
         dts := dts new_buffer; duration := duration new_buffer;
         offset := offset new_buffer |} in
    let new_buffer :=
      {| memory := memory new_buffer; pts := pts new_buffer;
         dts := dts buffer; duration := duration new_buffer;
         offset := offset new_buffer |} in
    let new_buffer :=
      {| memory := memory new_buffer; pts := pts new_buffer;
         dts := dts new_buffer; duration := duration buffer;
         offset := offset new_buffer |} in
    let new_buffer :=
      {| memory := memory new_buffer; pts := pts new_buffer;
         dts := dts new_buffer; duration := duration new_buffer;
         offset := offset buffer |} in
    let retval := push_ret in
    {| mem := h; appsrc := appsrc g; last_caps := last_caps g;
       trace := trace g ++ [PushBuffer new_buffer retval] ++
         (if flow_ok retval then []
          else [Stderr ("Warning: appsrc push-buffer returned "
                        +:+ str_FlowReturn retval)]) |}
  end.

(** [on_new_sample(appsink)].  [pulled] is what
    [appsink.emit("pull-sample")] returns, [map_success] whether the
    engine maps the buffer, and [push_ret] the engine's answer to
    ["push-buffer"].  Mapping and unmapping do not change the bytes of a
    block, so [buffer.unmap(map_info)] leaves no mark on the state. *)
Definition on_new_sample (pulled : option Sample) (map_success : bool)
    (push_ret : FlowReturn) (g : globals) : outcome FlowReturn * globals :=
  match pulled with
  | None => (Returned FLOW_ERROR, g)
  | Some sample =>
    let buffer := sample_buffer sample in
    match sample_caps sample with
    | None =>
        (Returned FLOW_OK,
         {| mem := mem g; appsrc := appsrc g; last_caps := last_caps g;
            trace := trace g ++ [Stderr "Warning: No caps found on sample"] |})
    | Some caps =>
      let g := update_caps caps g in
      if negb map_success then
        (Returned FLOW_ERROR,
         {| mem := mem g; appsrc := appsrc g; last_caps := last_caps g;
            trace := trace g ++ [Stderr "Error: Failed to map buffer"] |})
      else
        (* map_info.data is the buffer's own memory, mapped for reading *)
        let data := memory buffer in
        match np_ndarray (mem g) (height caps, width caps, 3) data with
        | Raised e => (Raised e, g)
        | Returned frame =>
          let '(frame_copy, h1) := copy (mem g) frame in
          let '(processed_frame, h2) := process_frame_opencv h1 frame_copy in
          let g :=
            {| mem := h2; appsrc := appsrc g; last_caps := last_caps g;
               trace := trace g |} in
          (Returned FLOW_OK, push_processed buffer processed_frame push_ret g)
        end
    end
  end.

(** The buffers handed to ["push-buffer"]. *)
Definition pushed (tr : list event) : list Buffer :=
  omap (fun ev => match ev with PushBuffer b _ => Some b | _ => None end) tr.
End OpenCV.

(** Every block of [h] is still there in [h'], with the same bytes. *)
Definition preserved (h h' : heap) : Prop :=
  forall l, is_Some (h !! l) -> h' !! l = h !! l.

(** The four metadata fields of [nb] are those of [b]. *)
Definition same_timing (b nb : Buffer) : Prop :=
  pts nb = pts b /\ dts nb = dts b /\
  duration nb = duration b /\ offset nb = offset b.

(** A transform that overwrites every pixel of the image it is given. *)
Definition paint_all (img : bytes) (sh : Z * Z * Z) (p q : Z * Z)
    (colour : Z * Z * Z) (thickness : Z) : bytes :=
  map (fun _ => Byte.xff) img.

(** A two-pixel BGR frame in block 7 (with one byte of padding), its
    sample, and globals with an [appsrc] that has no caps yet. *)
Definition sample_heap : heap :=
  <[ 7%nat := [Byte.x01; Byte.x02; Byte.x03; Byte.x04; Byte.x05; Byte.x06;
               Byte.x07] ]> ∅.

Definition bgr_caps : Caps :=
  {| structure_name := "video/x-raw";
     structure_fields := ", format=(string)BGR, width=(int)2, height=(int)1";
     height := 1; width := 2 |}.

Definition pulled_sample : Sample :=
  {| sample_buffer := {| memory := 7%nat; pts := 40; dts := 41;
                         duration := 42; offset := 43 |};
     sample_caps := Some bgr_caps |}.

Definition initial_globals : globals :=
  {| mem := sample_heap; appsrc := Some {| src_caps := None |};
     last_caps := None; trace := [] |}.

(** An OpenCV that finds one large red contour in every image. *)
Definition one_contour (img : bytes) (sh : Z * Z * Z) : list unit := [tt].
Definition always_large (c : unit) (n : Z) : bool := true.
Definition unit_rect (c : unit) : Z * Z * Z * Z := (0, 0, 1, 1).

End Bridge.

(* ===================================================================== *)
(** * The registry as a service: sequences of requests *)
(* ===================================================================== *)

Module RegistryService.
Import Discovery.

(** One request to the three routes of app.py.  A POST carries, beside its
    JSON object, what [uuid] and the clock give while it is handled. *)
Inductive incoming : Type :=
  | POST_broadcasts (uuid_hex8 : string) (now : Z) (data : gmap string json)
  | GET_broadcasts
  | DELETE_broadcasts (broadcaster_id : string).

(** The dictionary [broadcasts] after one request. *)
Definition handle (broadcasts : registry) (rq : incoming) : registry :=
  match rq with
  | POST_broadcasts hex now data => snd (register_broadcast hex now data broadcasts)
  | GET_broadcasts => broadcasts
  | DELETE_broadcasts id => snd (delete_broadcast id broadcasts)
  end.

(** The dictionary after a sequence of requests, handled one by one. *)
Definition serve (rqs : list incoming) (broadcasts : registry) : registry :=
  foldl handle broadcasts rqs.

(** A record as the view stores it under the key [key]: active, with an
    endpoint that is not [None], and with the key or [None] as its id. *)
Definition stored_well (key : string) (r : BroadcastRecord) : Prop :=
  status r = "active" /\
  stream_url r <> JNull /\
  (broadcaster_id r = JStr key \/
   (broadcaster_id r = JNull /\ exists hex, key = "broadcaster-" +:+ hex)).

(** The records of a listing response. *)
Definition listed (r : response) : list BroadcastRecord :=
  match fst r with
  | ListBody rs => rs
  | _ => []
  end.

End RegistryService.

(* ===================================================================== *)
(** * The HTTP clients of the registry (task2 broadcaster and consumer) *)
(* ===================================================================== *)

Module Clients.
Import Discovery.

#[global] Instance json_eq_dec : EqDecision json.
Proof. solve_decision. Defined.

Definition RTSP_PORT : string := "5051".

(** What [response.json()] decodes to, as far as the clients look into it:
    an object, or an array of objects.  A body that is not JSON makes
    [response.json()] raise an exception that [except json.JSONDecodeError]
    catches (the standard [json] module is the decoder). *)
Inductive document : Type :=
  | Object (fields : gmap string json)
  | Array (items : list (gmap string json)).

(** [requests.Response]: the status and the decoded body, [None] when the
    body is not JSON. *)
Record Response : Type := mkResponse {
  status_code : Z;
  decoded : option document
}.

(** What a call of [requests.post], [requests.get] or [requests.delete]
    leads to: a [RequestException] raised by the call itself (no connection,
    timeout), with its text, or a response. *)
Inductive exchange : Type :=
  | Refused (e : string)
  | Answered (response : Response).

(** The subclasses of [requests.exceptions.RequestException] that reach the
    [except] clause. *)
Inductive request_exception : Type :=
  | ConnectionError (e : string)
  | HTTPError (status : Z)
  | InvalidJSON.

(** What leaves a client function instead of a return value. *)
Inductive failure : Type :=
  | UnboundLocalError (name : string)
  | JSONDecodeError
  | Uncaught (e : exn).

Inductive result (A : Type) : Type :=
  | Done (a : A)
  | Escaped (f : failure).
Arguments Done {A} a.
Arguments Escaped {A} f.

(** The calls of [print], before formatting. *)
Inductive line : Type :=
  | Say (text : string)
  | SayJson (d : document)                      (* json.dumps(d, indent=4) *)
  | SayError (doing : string) (e : request_exception)
                                                (* f"Error {doing}: {e}" *)
  | SayStatus (status : Z)                      (* f"Status Code: ..." *)
  | SayDetails (d : document)                   (* f"Error Details: ..." *)
  | SayText.                                    (* f"Error Response Text: ..." *)

(** [response.raise_for_status()] *)
Definition raise_for_status (response : Response) : option request_exception :=
  if (400 <=? status_code response) && (status_code response <? 600)
  then Some (HTTPError (status_code response)) else None.

(** The [except requests.exceptions.RequestException as e] clause that the
    three functions share.  [response] is [None] here when the local
    variable has not been assigned: reading it raises. *)
Definition handle_request_exception (doing : string) (e : request_exception)
    (response : option Response) : result unit * list line :=
  match response with
  | None => (Escaped (UnboundLocalError "response"), [SayError doing e])
  | Some r =>
      (Done tt,
       [SayError doing e; SayStatus (status_code r)] ++
       match decoded r with
       | Some error_data => [SayDetails error_data]
       | None => [SayText]
       end)
  end.

(** The payload of [register_broadcaster]. *)
Definition register_payload (broadcaster_id server_address : string)
  : gmap string json :=
  request (JStr broadcaster_id)
    (JStr ("rtsp://" +:+ server_address +:+ ":" +:+ RTSP_PORT +:+ broadcaster_id)).

Section Requests.
(** Whether [response.json()] raises a subclass of [RequestException] on a
    body that is not JSON (requests 2.27 and later) or [json.JSONDecodeError]
    alone. *)
Variable json_error_is_request_exception : bool.

(** task2/broadcaster/video_broadcast.py, [register_broadcaster]; [post]
    is [requests.post] on the registry's endpoint. *)
Definition register_broadcaster (post : gmap string json -> exchange)
    (broadcaster_id server_address : string) : result unit * list line :=
  let payload := register_payload broadcaster_id server_address in
  match post payload with
  | Refused e =>
      handle_request_exception "registering broadcaster" (ConnectionError e) None
  | Answered response =>
    match raise_for_status response with
    | Some e =>
        handle_request_exception "registering broadcaster" e (Some response)
    | None =>
      match decoded response with
      | Some broadcast_data =>
          (Done tt, [Say "Broadcaster registration successful!";
                     Say "Response Body:"; SayJson broadcast_data])
      | None =>
          if json_error_is_request_exception then
            handle_request_exception "registering broadcaster" InvalidJSON
              (Some response)
          else (Escaped JSONDecodeError, [])
      end
    end
  end.

(** task2/broadcaster/video_broadcast.py, [deregister_broadcaster];
    [delete] is [requests.delete] on the endpoint of the id. *)
Definition deregister_broadcaster (delete : string -> exchange)
    (broadcaster_id : string) : result unit * list line :=
  match delete broadcaster_id with
  | Refused e =>
      handle_request_exception ("deleting broadcaster " +:+ broadcaster_id)
        (ConnectionError e) None
  | Answered response =>
    match raise_for_status response with
    | Some e =>
        handle_request_exception ("deleting broadcaster " +:+ broadcaster_id)
          e (Some response)
    | None =>
        (* printed after an empty line *)
        (Done tt, [Say ("Successfully deleted broadcaster: " +:+ broadcaster_id)])
    end
  end.

(** The [for broadcast in broadcasts_list] loop of the consumer on an
    array. *)
Fixpoint scan (items : list (gmap string json)) (broadcaster_id : json)
  : outcome json :=
  match items with
  | [] => Returned JNull
  | broadcast :: rest =>
      try! id <- getitem broadcast "broadcaster_id";
      if bool_decide (id = broadcaster_id) then getitem broadcast "stream_url"
      else scan rest broadcaster_id
  end.

(** The same loop on whatever was decoded: iterating an object goes through
    its keys, and subscripting a key with a string raises. *)
Definition scan_document (d : document) (broadcaster_id : json) : outcome json :=
  match d with
  | Array items => scan items broadcaster_id
  | Object fields =>
      if bool_decide (fields = ∅) then Returned JNull
      else Raised (TypeError "string indices must be integers")
  end.

(** task2/consumer/video_consumer.py, [list_broadcasts]; [get] is the
    outcome of [requests.get] on the registry's endpoint.  [None] is
    [JNull], for the argument and for the result. *)
Definition list_broadcasts (get : exchange) (broadcaster_id : json)
  : result json * list line :=
  let tried : option document * (result unit * list line) :=
    match get with
    | Refused e =>
        (None, handle_request_exception "listing broadcasts" (ConnectionError e) None)
    | Answered response =>
      match raise_for_status response with
      | Some e =>
          (None, handle_request_exception "listing broadcasts" e (Some response))
      | None =>
        match decoded response with
        | Some broadcasts_list =>
            (Some broadcasts_list,
             (Done tt,
              if is_None broadcaster_id
              then [Say "List of All Broadcasts:"; SayJson broadcasts_list]
              else []))
        | None =>
            if json_error_is_request_exception then
              (None, handle_request_exception "listing broadcasts" InvalidJSON
                       (Some response))
            else (None, (Escaped JSONDecodeError, []))
        end
      end
    end in
  match tried with
  | (_, (Escaped f, out)) => (Escaped f, out)
  | (None, (Done _, out)) => (Escaped (UnboundLocalError "broadcasts_list"), out)
  | (Some broadcasts_list, (Done _, out)) =>
      match scan_document broadcasts_list broadcaster_id with
      | Returned v => (Done v, out)
      | Raised e => (Escaped (Uncaught e), out)
      end
  end.
End Requests.

Section Wire.
(** The text [jsonify] writes for a [datetime]. *)
Variable http_date : Z -> string.

(** [jsonify] of a stored record, decoded again by the client. *)
Definition encode_record (r : BroadcastRecord) : gmap string json :=
  <[ "broadcaster_id" := broadcaster_id r ]>
    (<[ "stream_url" := stream_url r ]>
       (<[ "status" := JStr (status r) ]>
          (<[ "created_at" := JStr (http_date (created_at r)) ]> ∅))).

Definition encode_body (b : body) : document :=
  match b with
  | ErrorBody error => Object (<[ "error" := JStr error ]> ∅)
  | RecordBody r => Object (encode_record r)
  | ListBody rs => Array (map encode_record rs)
  | EmptyBody => Object ∅
  end.

(** What the client receives for a view's outcome: the status and the body
    that is sent; an exception in the view is a 500 whose body is not
    JSON. *)
Definition flask (r : outcome response) : Response :=
  match r with
  | Returned resp =>
      {| status_code := snd resp; decoded := encode_body <$> sent_body resp |}
  | Raised _ => {| status_code := 500; decoded := None |}
  end.

(** [requests.post] against a registry holding [broadcasts]: [json.dumps]
    and [get_json] carry the payload over. *)
Definition post_to (uuid_hex8 : string) (now : Z) (broadcasts : registry)
    (payload : gmap string json) : exchange :=
  Answered (flask (fst (register_broadcast uuid_hex8 now payload broadcasts))).

(** [requests.get] answered by the registry's listing view with the
    records [rs], in the order the view sends them. *)
Definition get_listing (rs : list BroadcastRecord) : exchange :=
  Answered (flask (Returned (ListBody rs, 200))).
End Wire.

(** The endpoint of the first record whose id is [id], [None] when no
    record has it: what the consumer's loop computes, on records. *)
Fixpoint resolve (rs : list BroadcastRecord) (id : json) : json :=
  match rs with
  | [] => JNull
  | r :: rest =>
      if bool_decide (broadcaster_id r = id) then stream_url r
      else resolve rest id
  end.

(** A date rendering to run the clients with. *)
Definition plain_date (t : Z) : string := PyFloat.dec t.

End Clients.

(* ===================================================================== *)
(** * The engine calling the callbacks repeatedly *)
(* ===================================================================== *)

Module Runs.
Import Gst.

(** The task1 tap on a sequence of probe infos, each call on the globals the
    previous call left. *)
Fixpoint feed {Overlay}
    (set_property : Overlay -> string -> string -> Overlay * option exn)
    (infos : list (option Buffer)) (g : OpenCVTap.globals Overlay)
  : list (outcome PadProbeReturn) * OpenCVTap.globals Overlay :=
  match infos with
  | [] => ([], g)
  | info :: rest =>
      let '(r, g1) := OpenCVTap.fps_probe_callback set_property info g in
      let '(rs, g2) := feed set_property rest g1 in
      (r :: rs, g2)
  end.

(** [decodebin] announcing its pads one after the other to a handler that
    was connected with one target pad: the pads as the handler leaves them,
    the target at the end, and everything printed and linked. *)
Fixpoint pads_added
    (handler : string -> PadAdded.Pad -> PadAdded.Pad ->
               outcome unit * (PadAdded.Pad * PadAdded.Pad) * list PadAdded.event)
    (element : string) (pads : list PadAdded.Pad) (target : PadAdded.Pad)
  : list PadAdded.Pad * PadAdded.Pad * list PadAdded.event :=
  match pads with
  | [] => ([], target, [])
  | pad :: rest =>
      let '(_, (pad', target1), out) := handler element pad target in
      let '(rest', target2, out') := pads_added handler element rest target1 in
      (pad' :: rest', target2, out ++ out')
  end.

(** One ["new-sample"] signal: what the pull returns, whether the buffer
    maps, and what the push answers. *)
Definition signal : Type := option Bridge.Sample * bool * FlowReturn.

(** The caps of the sample of a signal, if it has a sample with caps. *)
Definition caps_of (sg : signal) : option Caps :=
  match fst (fst sg) with
  | Some sample => Bridge.sample_caps sample
  | None => None
  end.

Section OpenCV.
Variable contour : Type.
Variable red_contours : Bridge.bytes -> Z * Z * Z -> list contour.
Variable area_gt : contour -> Z -> bool.
Variable boundingRect : contour -> Z * Z * Z * Z.
Variable rectangle :
  Bridge.bytes -> Z * Z * Z -> Z * Z -> Z * Z -> Z * Z * Z -> Z -> Bridge.bytes.

(** [on_new_sample] on a sequence of signals, each call on the globals the
    previous call left. *)
Fixpoint new_samples (signals : list signal) (g : Bridge.globals)
  : list (outcome FlowReturn) * Bridge.globals :=
  match signals with
  | [] => ([], g)
  | (pulled, map_success, push_ret) :: rest =>
      let '(r, g1) :=
        Bridge.on_new_sample contour red_contours area_gt boundingRect rectangle
          pulled map_success push_ret g in
      let '(rs, g2) := new_samples rest g1 in
      (r :: rs, g2)
  end.
End OpenCV.

(** An OpenCV that finds no contour. *)
Definition no_contour (img : Bridge.bytes) (sh : Z * Z * Z) : list unit := [].

(** A pad of [decodebin] that has no caps yet. *)
Definition capless_pad : PadAdded.Pad :=
  {| PadAdded.pad_name := "src_2"; PadAdded.parent_name := "decoder";
     PadAdded.current_caps := None; PadAdded.queried_caps := None;
     PadAdded.peer := None |}.

(** Caps of a 2 x 2 frame, and a sample that announces them for the
    seven-byte block of [Bridge.sample_heap]. *)
Definition square_caps : Caps :=
  {| structure_name := "video/x-raw";
     structure_fields := ", format=(string)BGR, width=(int)2, height=(int)2";
     height := 2; width := 2 |}.

Definition short_sample : Bridge.Sample :=
  {| Bridge.sample_buffer := {| memory := 7%nat; pts := 80; dts := 81;
                                duration := 42; offset := 44 |};
     Bridge.sample_caps := Some square_caps |}.

(** A buffer that carries no timestamp. *)
Definition untimed_buffer : Buffer :=
  {| memory := 7%nat; pts := CLOCK_TIME_NONE; dts := CLOCK_TIME_NONE;
     duration := CLOCK_TIME_NONE; offset := BUFFER_OFFSET_NONE |}.

End Runs.

(* ===================================================================== *)
(** * Properties of the discovery registry *)
(* ===================================================================== *)

Module DiscoveryFacts.
Import Discovery.

Lemma request_stream_url id url : getitem (request id url) "stream_url" = Returned url.
Proof. unfold getitem, request. by simplify_map_eq. Qed.

Lemma request_broadcaster_id id url :
  getitem (request id url) "broadcaster_id" = Returned id.
Proof. unfold getitem, request. by simplify_map_eq. Qed.

(** With an explicit id, the record is stored under that id, carries the
    id, the endpoint, the status "active" and the clock reading, and is the
    body of the 201 response. *)
Lemma register_explicit_id hex now (id url : string) (broadcasts : registry) :
  let r := {| broadcaster_id := JStr id; stream_url := JStr url;
              status := "active"; created_at := now |} in
  register_broadcast hex now (request (JStr id) (JStr url)) broadcasts
  = (Returned (RecordBody r, 201), <[ id := r ]> broadcasts).
Proof.
  intros r. unfold register_broadcast.
  rewrite request_stream_url, request_broadcaster_id. cbn.
  by rewrite lookup_insert_eq.
Qed.

Lemma register_explicit_id_listed hex now (id url : string) (broadcasts : registry) :
  let '(_, broadcasts') :=
    register_broadcast hex now (request (JStr id) (JStr url)) broadcasts in
  exists rs, list_broadcasts broadcasts' = (ListBody rs, 200) /\
    {| broadcaster_id := JStr id; stream_url := JStr url;
       status := "active"; created_at := now |} ∈ rs.
Proof.
  rewrite register_explicit_id. eexists; split; [reflexivity|].
  apply list_elem_of_fmap. eexists (id, _). split; [reflexivity|].
  apply elem_of_map_to_list. apply lookup_insert_eq.
Qed.

(** C3, evaluated where the request carries the endpoint and [null] for the
    id: the record is stored under the generated id
    ["broadcaster-" + hex], but its [broadcaster_id] field, in the registry
    and in the 201 response, is [None], taken from the request. *)
Theorem register_generated_id_field_is_none
    hex now (url : string) (broadcasts : registry) :
  let r := {| broadcaster_id := JNull; stream_url := JStr url;
              status := "active"; created_at := now |} in
  register_broadcast hex now (request JNull (JStr url)) broadcasts
  = (Returned (RecordBody r, 201), <[ "broadcaster-" +:+ hex := r ]> broadcasts).
Proof.
  intros r. unfold register_broadcast.
  rewrite request_stream_url, request_broadcaster_id. cbn.
  by rewrite lookup_insert_eq.
Qed.

(** With the endpoint present and the id key absent from the request,
    subscripting raises KeyError and nothing is stored. *)
Lemma register_absent_id_raises hex now (url : string) (broadcasts : registry) :
  register_broadcast hex now (<[ "stream_url" := JStr url ]> ∅) broadcasts
  = (Raised (KeyError "broadcaster_id"), broadcasts).
Proof. unfold register_broadcast, getitem. by simplify_map_eq. Qed.

(** C4, evaluated where the request has no [stream_url] key:
    [data['stream_url']] raises KeyError, no 400 response is built; the
    registry is unchanged. *)
Theorem register_absent_stream_url_raises
    hex now (data : gmap string json) (broadcasts : registry) :
  data !! "stream_url" = None ->
  register_broadcast hex now data broadcasts
  = (Raised (KeyError "stream_url"), broadcasts).
Proof. intros H. unfold register_broadcast, getitem. by rewrite H. Qed.

Lemma register_absent_stream_url_raises_witness :
  register_broadcast "0a1b2c3d" 0 (<[ "broadcaster_id" := JStr "cam1" ]> ∅) ∅
  = (Raised (KeyError "stream_url"), ∅).
Proof. apply register_absent_stream_url_raises. reflexivity. Defined.

(** A [null] endpoint is answered with 400 and the error body, and the
    registry is unchanged. *)
Lemma register_null_stream_url hex now (data : gmap string json) (broadcasts : registry) :
  data !! "stream_url" = Some JNull ->
  register_broadcast hex now data broadcasts
  = (Returned (ErrorBody "Missing stream_url", 400), broadcasts).
Proof. intros H. unfold register_broadcast, getitem. by rewrite H. Qed.

(** C5: deregistering an id that is not in the mapping answers 404 with the
    error body and returns the mapping as it was; deregistering a present id
    answers 204, the view's [jsonify({})] is not sent, the id is no longer in
    the mapping, every other id maps to what it mapped to before, and the
    mapping has one entry less. *)
Theorem delete_broadcast_spec (id : string) (broadcasts : registry) :
  let '(resp, broadcasts') := delete_broadcast id broadcasts in
  match broadcasts !! id with
  | None =>
      resp = (ErrorBody "Broadcaster not found", 404) /\
      sent_body resp = Some (ErrorBody "Broadcaster not found") /\
      broadcasts' = broadcasts
  | Some _ =>
      resp = (EmptyBody, 204) /\
      sent_body resp = None /\
      broadcasts' !! id = None /\
      (forall k, k <> id -> broadcasts' !! k = broadcasts !! k) /\
      S (size broadcasts') = size broadcasts
  end.
Proof.
  unfold delete_broadcast.
  destruct (broadcasts !! id) as [r|] eqn:E; [|done].
  repeat split.
  - apply lookup_delete_eq.
  - intros k Hk. by apply lookup_delete_ne.
  - rewrite <- (insert_delete_id broadcasts id r E) at 2.
    rewrite map_size_insert_None; [done|]. apply lookup_delete_eq.
Qed.

End DiscoveryFacts.

(* ===================================================================== *)
(** * Properties of Python's true division *)
(* ===================================================================== *)

Module PyFloatFacts.
Import PyFloat.

(** ** Binary digits *)

Lemma digits2_pos_size p : digits2_pos p = Pos.size p.
Proof. induction p; cbn; congruence. Qed.

Lemma Zdigits2_log2 m : 0 < m -> Zdigits2 m = Z.log2 m + 1.
Proof.
  destruct m as [|p|p]; try lia. intros _. cbn [Zdigits2].
  rewrite digits2_pos_size. destruct p; cbn; lia.
Qed.

Lemma Zdigits2_nonneg m : 0 <= Zdigits2 m.
Proof. destruct m; cbn; lia. Qed.

Lemma Zdigits2_mono a b : 0 <= a <= b -> Zdigits2 a <= Zdigits2 b.
Proof.
  intros [Ha Hab]. destruct (Z.eq_dec a 0) as [->|Hne].
  - apply Zdigits2_nonneg.
  - rewrite !Zdigits2_log2 by lia.
    pose proof (Z.log2_le_mono a b Hab). lia.
Qed.

Lemma Zdigits2_succ a : 0 <= a -> Zdigits2 (a + 1) <= Zdigits2 a + 1.
Proof.
  intros Ha. destruct (Z.eq_dec a 0) as [->|Hne]; [vm_compute; discriminate|].
  rewrite !Zdigits2_log2 by lia.
  pose proof (Z.log2_succ_le a). unfold Z.succ in *. lia.
Qed.

Lemma Zdigits2_shiftr a n :
  0 <= a -> 0 <= n -> Zdigits2 (Z.shiftr a n) <= Z.max (Zdigits2 a - n) 0.
Proof.
  intros Ha Hn. destruct (Z.eq_dec a 0) as [->|Hne].
  - rewrite Z.shiftr_0_l. cbn. lia.
  - assert (0 <= Z.shiftr a n) by (apply Z.shiftr_nonneg; lia).
    destruct (Z.eq_dec (Z.shiftr a n) 0) as [->|Hs]; [cbn; lia|].
    rewrite !Zdigits2_log2 by lia.
    rewrite Z.log2_shiftr by lia.
    assert (Z.log2 (Z.shiftr a n) <> 0 \/ Z.log2 (Z.shiftr a n) = 0) as [C|C] by lia.
    + rewrite Z.log2_shiftr in C by lia. lia.
    + rewrite Z.log2_shiftr in C by lia.
      assert (n <= Z.log2 a); [|lia].
      destruct (Z.le_gt_cases n (Z.log2 a)) as [L|L]; [done|].
      exfalso. apply Hs. apply Z.shiftr_eq_0; lia.
Qed.

Lemma Zdigits2_shiftl a n :
  0 < a -> 0 <= n -> Zdigits2 (Z.shiftl a n) = Zdigits2 a + n.
Proof.
  intros Ha Hn.
  assert (0 < Z.shiftl a n).
  { rewrite Z.shiftl_mul_pow2 by lia.
    apply Z.mul_pos_pos; [lia|]. apply Z.pow_pos_nonneg; lia. }
  rewrite !Zdigits2_log2 by lia. rewrite Z.log2_shiftl by lia. lia.
Qed.

(** ** Shifting the mantissa right *)

Lemma shr_1_m mrs :
  0 <= shr_m mrs -> shr_m (shr_1 mrs) = Z.shiftr (shr_m mrs) 1.
Proof.
  destruct mrs as [m r s]. cbn [shr_m]. intros Hm.
  destruct m as [|[p|p|]|p]; try lia; reflexivity.
Qed.

Lemma iter_pos_shr_1_m n : forall mrs,
  0 <= shr_m mrs ->
  shr_m (SpecFloat.iter_pos shr_1 n mrs) = Z.shiftr (shr_m mrs) (Zpos n).
Proof.
  induction n as [n IH|n IH|]; intros mrs Hm; cbn [SpecFloat.iter_pos].
  - assert (H1 : 0 <= shr_m (shr_1 mrs))
      by (rewrite shr_1_m by done; apply Z.shiftr_nonneg; done).
    assert (H2 : 0 <= shr_m (SpecFloat.iter_pos shr_1 n (shr_1 mrs)))
      by (rewrite IH by done; apply Z.shiftr_nonneg; done).
    rewrite IH, IH, shr_1_m by done.
    rewrite !Z.shiftr_shiftr by lia. f_equal. lia.
  - assert (H2 : 0 <= shr_m (SpecFloat.iter_pos shr_1 n mrs))
      by (rewrite IH by done; apply Z.shiftr_nonneg; done).
    rewrite IH, IH by done.
    rewrite !Z.shiftr_shiftr by lia. f_equal. lia.
  - by apply shr_1_m.
Qed.

Lemma shr_record_of_loc_m m l : shr_m (shr_record_of_loc m l) = m.
Proof. destruct l as [|[]]; reflexivity. Qed.

(** [fexp] of binary64, bounded above. *)
Lemma fexp_le x : x <= 1024 -> fexp prec emax x <= 971.
Proof. unfold fexp, emin, prec, emax. lia. Qed.

(** One [shr_fexp] step on a non-negative mantissa whose value is below
    [2^1023]: the mantissa stays non-negative and the bound is kept. *)
Lemma shr_fexp_bound m e l mrs e' :
  0 <= m -> e <= 971 -> Zdigits2 m + e <= 1024 ->
  shr_fexp prec emax m e l = (mrs, e') ->
  0 <= shr_m mrs /\ e' <= 971 /\
  Zdigits2 (shr_m mrs) + e' <= Z.max (Zdigits2 m + e) 971.
Proof.
  intros Hm He Hd. unfold shr_fexp, shr.
  pose proof (fexp_le (Zdigits2 m + e) Hd) as Hf.
  destruct (fexp prec emax (Zdigits2 m + e) - e) as [|n|n] eqn:En;
    intros [= <- <-]; rewrite ?shr_record_of_loc_m; try lia.
  rewrite iter_pos_shr_1_m by (rewrite shr_record_of_loc_m; done).
  rewrite shr_record_of_loc_m.
  pose proof (Zdigits2_shiftr m (Zpos n) Hm). 
  assert (0 <= Z.shiftr m (Z.pos n)) by (apply Z.shiftr_nonneg; done).
  lia.
Qed.

Lemma round_nearest_even_bound m l :
  0 <= m ->
  0 <= round_nearest_even m l /\
  Zdigits2 (round_nearest_even m l) <= Zdigits2 m + 1.
Proof.
  intros Hm. pose proof (Zdigits2_succ m Hm).
  unfold round_nearest_even.
  destruct l as [|[]]; try destruct (Z.even m); lia.
Qed.

(** Rounding a non-negative mantissa below [2^1023] gives a zero or a
    finite float carrying the requested sign. *)
Lemma binary_round_aux_finite s m e l :
  0 <= m -> e <= 971 -> Zdigits2 m + e <= 1023 ->
  let r := binary_round_aux prec emax s m e l in
  is_finite r = true /\ sign_bit r = s.
Proof.
  intros Hm He Hd r. subst r. unfold binary_round_aux.
  destruct (shr_fexp prec emax m e l) as [mrs1 e1] eqn:E1.
  apply shr_fexp_bound in E1 as (H1 & H2 & H3); try lia.
  pose proof (round_nearest_even_bound (shr_m mrs1) (loc_of_shr_record mrs1) H1)
    as [R1 R2].
  destruct (shr_fexp prec emax _ e1 loc_Exact) as [mrs2 e2] eqn:E2.
  apply shr_fexp_bound in E2 as (G1 & G2 & G3); try lia.
  destruct (shr_m mrs2) as [|p|p]; try lia; [done|].
  replace (e2 <=? emax - prec) with true; [done|].
  symmetry. apply Z.leb_le. unfold emax, prec. lia.
Qed.

End PyFloatFacts.

Module TrueDivFacts.
Import PyFloat PyFloatFacts.

(** The quotient that the division core hands to the rounding: it is not
    negative and its value is not above the dividend's. *)
Lemma SFdiv_core_bound (ma mb : positive) mz ez lz :
  SFdiv_core_binary prec emax (Zpos ma) 0 (Zpos mb) 0 = (mz, ez, lz) ->
  0 <= mz /\ ez <= 0 /\ Zdigits2 mz + ez <= Zdigits2 (Zpos ma).
Proof.
  unfold SFdiv_core_binary.
  set (e' := Z.min _ _). set (s := 0 - 0 - e').
  assert (He' : e' <= 0) by (subst e'; lia).
  set (m' := match s with Zpos _ => Z.shiftl (Zpos ma) s | 0 => Zpos ma | Zneg _ => 0 end).
  assert (Hm' : 0 <= m' /\ Zdigits2 m' + e' <= Zdigits2 (Zpos ma)).
  { subst m'. destruct s as [|p|p] eqn:Es.
    - split; [lia|]. lia.
    - split.
      + rewrite Z.shiftl_mul_pow2 by lia. 
        pose proof (Z.pow_pos_nonneg 2 (Zpos p)). lia.
      + rewrite Zdigits2_shiftl by lia. lia.
    - lia. }
  destruct (Z.div_eucl m' (Zpos mb)) as [q r] eqn:E.
  intros [= <- <- <-].
  assert (Hq : q = m' / Zpos mb) by (unfold Z.div; by rewrite E).
  assert (0 <= q) by (subst q; apply Z.div_pos; lia).
  assert (q <= m').
  { subst q. apply Z.div_le_upper_bound; [lia|]. nia. }
  pose proof (Zdigits2_mono q m'). lia.
Qed.

Lemma Zdigits2_below_pow2 p n : 0 <= n -> Zpos p < 2 ^ n -> Zdigits2 (Zpos p) <= n.
Proof.
  intros Hn H. rewrite Zdigits2_log2 by lia.
  apply Z.log2_lt_pow2 in H; lia.
Qed.

(** [a / b] with [b] not zero and [|a| < 2^1023] returns a finite float
    whose sign is the sign of the exact quotient. *)
Lemma int_truediv_finite a b :
  b <> 0 -> Z.abs a < 2 ^ 1023 ->
  exists q, int_truediv a b = Returned q /\
            is_finite q = true /\
            sign_bit q = xorb (a <? 0) (b <? 0).
Proof.
  intros Hb Ha. unfold int_truediv.
  destruct (Z.eqb_spec b 0) as [|_]; [done|].
  assert (Hfin : forall sa sb ma mb, Zpos ma < 2 ^ 1023 ->
    let r := SFdiv prec emax (S754_finite sa ma 0) (S754_finite sb mb 0) in
    is_finite r = true /\ sign_bit r = xorb sa sb).
  { intros sa sb ma mb Hma. cbn [SFdiv].
    destruct (SFdiv_core_binary _ _ _ _ _ _) as [[mz ez] lz] eqn:E.
    apply SFdiv_core_bound in E as (H1 & H2 & H3).
    pose proof (Zdigits2_below_pow2 ma 1023 ltac:(lia) Hma).
    apply binary_round_aux_finite; lia. }
  destruct a as [|ma|ma], b as [|mb|mb]; try done; cbn [of_int_exact];
    try (eexists; split; [reflexivity|]; split; reflexivity);
    match goal with
    | |- context [SFdiv _ _ (S754_finite ?sa ?ma 0) (S754_finite ?sb ?mb 0)] =>
        destruct (Hfin sa sb ma mb ltac:(lia)) as [F S];
        destruct (SFdiv _ _ (S754_finite sa ma 0) (S754_finite sb mb 0));
        try discriminate F; eexists; (split; [reflexivity|]); split; assumption
    end.
Qed.

(** The division of the tap: one billion by a non-zero delta. *)
Lemma rate_defined delta :
  delta <> 0 ->
  exists q, int_truediv 1000000000 delta = Returned q /\
            is_finite q = true /\ sign_bit q = (delta <? 0).
Proof.
  intros H. destruct (int_truediv_finite 1000000000 delta H) as (q & E & F & S).
  - reflexivity.
  - exists q. repeat split; done.
Qed.

Lemma rate_zero_delta :
  int_truediv 1000000000 0 = Raised (ZeroDivisionError "division by zero").
Proof. reflexivity. Qed.

(** A finite float with a clear sign bit is not below [0.0]. *)
Lemma not_negative q : is_finite q = true -> sign_bit q = false -> is_negative q = false.
Proof. destruct q as [[]|[]| |[] m e]; cbn; congruence. Qed.

Lemma sign_negative q :
  is_finite q = true -> sign_bit q = true -> q <> S754_zero true -> is_negative q = true.
Proof. destruct q as [[]|[]| |[] m e]; cbn; congruence. Qed.

End TrueDivFacts.

(* ===================================================================== *)
(** * Properties of the frame-rate tap (task2) *)
(* ===================================================================== *)

Module FpsProbeFacts.
Import PyFloat PyFloatFacts TrueDivFacts Gst FpsProbe.

Section Tap.
Context {Overlay : Type}.
Variable set_property : Overlay -> string -> string -> Overlay * option exn.
Variable label : string.

Local Abbreviation callback := (probe_callback_body set_property label).

Lemma labels_app tr1 tr2 : labels (tr1 ++ tr2) = labels tr1 ++ labels tr2.
Proof. apply omap_app. Qed.

Lemma labels_reported raised : labels (reported raised) = [].
Proof. by destruct raised. Qed.

(** One call on a buffer, when the rate is defined: the callback returns
    the pass-through result, stores the timestamp and the rate, hands the
    label to the overlay, and prints what [set_property] raised. *)
Lemma callback_step (buffer : Buffer) (w : world Overlay) q :
  next_fps (probe_state w) (pts buffer) = Returned q ->
  exists w',
    callback (Some buffer) w = (Returned PAD_PROBE_OK, w') /\
    probe_state w' = {| previous_pts := pts buffer; current_fps := q |} /\
    trace w' = trace w ++ [SetProperty "text" (label +:+ format_1f q)] ++
               reported (set_property (textoverlay_element w) "text"
                           (label +:+ format_1f q)).2.
Proof.
  intros E. unfold probe_callback_body. rewrite E. cbn [current_fps].
  destruct (set_property _ _ _) as [ov raised]. eexists. split; [reflexivity|].
  cbn. by rewrite <- app_assoc.
Qed.

Lemma next_fps_unset st t : previous_pts st = CLOCK_TIME_NONE -> next_fps st t = Returned zero.
Proof. intros E. unfold next_fps. rewrite E. reflexivity. Qed.

Lemma next_fps_stored st t :
  previous_pts st <> CLOCK_TIME_NONE ->
  next_fps st t = int_truediv 1000000000 (t - previous_pts st).
Proof.
  intros E. unfold next_fps.
  destruct (Z.eqb_spec (previous_pts st) CLOCK_TIME_NONE); done.
Qed.

(** ** Strictly increasing timestamps *)

Lemma deliver_increasing (ts : list Z) : forall (w : world Overlay),
  (ts = [] \/ previous_pts (probe_state w) <> CLOCK_TIME_NONE) ->
  Forall is_guint64 ts ->
  strictly_increasing (previous_pts (probe_state w) :: ts) ->
  exists rates,
    spec_rates_after (previous_pts (probe_state w)) ts = map Returned rates /\
    let '(rs, w') := deliver callback (frames ts) w in
    rs = map (fun _ => Returned PAD_PROBE_OK) ts /\
    labels (trace w') =
      labels (trace w) ++ map (fun r => label +:+ format_1f r) rates /\
    previous_pts (probe_state w') =
      default (previous_pts (probe_state w)) (last ts) /\
    current_fps (probe_state w') =
      default (current_fps (probe_state w)) (last rates).
Proof.
  induction ts as [|t rest IH]; intros w Hp Hr Hi.
  - exists []. cbn. by rewrite app_nil_r.
  - destruct Hp as [|Hp]; [done|].
    apply Forall_cons in Hr as [Ht Hr].
    cbn [strictly_increasing] in Hi. destruct Hi as [Hlt Hi].
    assert (Hd : t - previous_pts (probe_state w) <> 0) by lia.
    destruct (rate_defined _ Hd) as (q & Eq & _).
    destruct (callback_step (buffer_at t) w q) as (w1 & E1 & S1 & T1).
    { rewrite next_fps_stored by done. exact Eq. }
    change (pts (buffer_at t)) with t in S1.
    destruct (IH w1) as (rates & Er & D).
    + rewrite S1. cbn [previous_pts].
      destruct rest as [|u rest']; [by left|right].
      apply Forall_cons in Hr as [Hu _]. destruct Hi as [Htu _].
      cbn in Htu. clear -Hu Htu. unfold is_guint64, CLOCK_TIME_NONE in *. lia.
    + done.
    + rewrite S1. exact (conj (proj1 Hi) (proj2 Hi)).
    + exists (q :: rates). cbn [spec_rates_after map frames deliver].
      change (map (λ t0, Some (buffer_at t0)) rest) with (frames rest).
      rewrite E1. destruct (deliver callback (frames rest) w1) as [rs w'].
      destruct D as (D1 & D2 & D3 & D4).
      rewrite S1 in Er, D3, D4. cbn [previous_pts current_fps] in *.
      split; [by rewrite Eq, Er|]. split; [by rewrite D1|]. split.
      * rewrite D2, T1, !labels_app, labels_reported, app_nil_r.
        by rewrite <- app_assoc.
      * rewrite !last_cons, D3, D4. by destruct (last rest), (last rates).
Qed.

(** C1: fed strictly increasing [guint64] timestamps from the fresh state,
    every call returns the pass-through result; the labels handed to the
    overlay are the label prefix followed by the one-decimal rendering of
    the rates of the specification, which are 0.0 for the first timestamp
    and, for each later one, the float that [1_000_000_000 / (t_i -
    t_(i-1))] evaluates to; and the state stores the last timestamp and
    the last rate. *)
Theorem tap_reports_spec_rates (ts : list Z) (ov : Overlay) :
  Forall is_guint64 ts ->
  strictly_increasing ts ->
  exists rates,
    spec_rates ts = map Returned rates /\
    let '(rs, w') :=
      deliver callback (frames ts) (mkWorld fresh_state ov []) in
    rs = map (fun _ => Returned PAD_PROBE_OK) ts /\
    labels (trace w') = map (fun r => label +:+ format_1f r) rates /\
    previous_pts (probe_state w') = default CLOCK_TIME_NONE (last ts) /\
    current_fps (probe_state w') = default zero (last rates).
Proof.
  intros Hr Hi. destruct ts as [|t1 rest].
  - exists []. by cbn.
  - set (w0 := mkWorld fresh_state ov []).
    destruct (callback_step (buffer_at t1) w0 zero) as (w1 & E1 & S1 & T1);
      [reflexivity|].
    change (pts (buffer_at t1)) with t1 in S1.
    apply Forall_cons in Hr as [Ht Hr].
    destruct (deliver_increasing rest w1) as (rates & Er & D).
    + rewrite S1. cbn [previous_pts].
      destruct rest as [|u rest']; [by left|right].
      apply Forall_cons in Hr as [Hu _]. destruct Hi as [Htu _].
      cbn in Htu. clear -Hu Htu. unfold is_guint64, CLOCK_TIME_NONE in *. lia.
    + done.
    + rewrite S1. exact Hi.
    + exists (zero :: rates). cbn [spec_rates map frames deliver].
      change (map (λ t0, Some (buffer_at t0)) rest) with (frames rest).
      rewrite E1. destruct (deliver callback (frames rest) w1) as [rs w'].
      destruct D as (D1 & D2 & D3 & D4).
      rewrite S1 in Er, D3, D4. cbn [previous_pts current_fps] in *.
      split; [by rewrite Er|]. split; [by rewrite D1|]. split.
      * rewrite D2, T1, !labels_app, labels_reported, app_nil_r. done.
      * rewrite !last_cons, D3, D4. by destruct (last rest), (last rates).
Qed.

(** ** Non-positive deltas *)

(** With the same timestamp as the stored one the division raises, and
    the exception leaves the callback with the state untouched. *)
Lemma zero_delta_escapes (buffer : Buffer) (w : world Overlay) :
  previous_pts (probe_state w) <> CLOCK_TIME_NONE ->
  pts buffer = previous_pts (probe_state w) ->
  callback (Some buffer) w = (Raised (ZeroDivisionError "division by zero"), w).
Proof.
  intros Hp E. unfold probe_callback_body.
  rewrite next_fps_stored, E, Z.sub_diag by done. reflexivity.
Qed.

(** C2, amended: with a stored previous timestamp, a strictly earlier new
    timestamp makes the callback return the pass-through result and store
    the finite, negatively signed float that the division evaluates to; a
    new timestamp equal to the stored one makes the division raise
    ZeroDivisionError, which leaves the callback with the state as it
    was. *)
Theorem non_positive_delta_outcome (buffer : Buffer) (w : world Overlay) :
  previous_pts (probe_state w) <> CLOCK_TIME_NONE ->
  (pts buffer < previous_pts (probe_state w) ->
   exists q w',
     callback (Some buffer) w = (Returned PAD_PROBE_OK, w') /\
     int_truediv 1000000000 (pts buffer - previous_pts (probe_state w))
       = Returned q /\
     current_fps (probe_state w') = q /\
     is_finite q = true /\ sign_bit q = true) /\
  (pts buffer = previous_pts (probe_state w) ->
   callback (Some buffer) w
   = (Raised (ZeroDivisionError "division by zero"), w)).
Proof.
  intros Hp. split; [|by apply zero_delta_escapes].
  intros Hlt.
  assert (Hd : pts buffer - previous_pts (probe_state w) <> 0) by lia.
  destruct (rate_defined _ Hd) as (q & Eq & F & S).
  destruct (callback_step buffer w q) as (w' & E & St & _).
  { by rewrite next_fps_stored. }
  exists q, w'. rewrite St. repeat split; try done.
  rewrite S. apply Z.ltb_lt. lia.
Qed.

(** ** Exceptions *)

(** C8, amended: when there is no buffer, or no timestamp is stored, or
    the buffer's timestamp differs from the stored one, the callback
    returns the pass-through result; with a buffer, it has called
    [set_property("text", ...)] once and printed to stderr what that call
    raised, if anything. *)
Theorem tap_passes_through (info : option Buffer) (w : world Overlay) :
  (forall buffer, info = Some buffer ->
     previous_pts (probe_state w) <> CLOCK_TIME_NONE ->
     pts buffer <> previous_pts (probe_state w)) ->
  exists w',
    callback info w = (Returned PAD_PROBE_OK, w') /\
    match info with
    | None => w' = w
    | Some _ =>
        exists text,
          trace w' = trace w ++ [SetProperty "text" text] ++
            reported (set_property (textoverlay_element w) "text" text).2
    end.
Proof.
  intros H. destruct info as [buffer|]; [|by exists w].
  assert (exists q, next_fps (probe_state w) (pts buffer) = Returned q) as [q Eq].
  { destruct (Z.eq_dec (previous_pts (probe_state w)) CLOCK_TIME_NONE) as [E|E].
    - exists zero. by apply next_fps_unset.
    - rewrite next_fps_stored by done.
      specialize (H buffer eq_refl E).
      assert (Hd : pts buffer - previous_pts (probe_state w) <> 0) by lia.
      destruct (rate_defined _ Hd) as (q & Eq & _). by exists q. }
  destruct (callback_step buffer w q Eq) as (w' & E & _ & T).
  exists w'. split; [done|]. by eexists.
Qed.

(** ** The stored rate over a run *)

Lemma deliver_cons info infos (w : world Overlay) :
  (deliver callback (info :: infos) w).2
  = (deliver callback infos (callback info w).2).2.
Proof.
  cbn [deliver]. destruct (callback info w) as [r w1]. cbn [snd].
  by destruct (deliver callback infos w1).
Qed.

Lemma non_decreasing_cons t ts : non_decreasing (t :: ts) -> non_decreasing ts.
Proof. by intros [_ H]. Qed.

Lemma deliver_non_decreasing infos : forall (w : world Overlay),
  rate_ok (current_fps (probe_state w)) ->
  (previous_pts (probe_state w) = CLOCK_TIME_NONE /\
     non_decreasing (timestamps infos)) \/
  non_decreasing (previous_pts (probe_state w) :: timestamps infos) ->
  rate_ok (current_fps (probe_state (deliver callback infos w).2)).
Proof.
  induction infos as [|[buffer|] rest IH]; intros w Hok Hts; [done| |].
  - rewrite deliver_cons.
    change (timestamps (Some buffer :: rest))
      with (pts buffer :: timestamps rest) in Hts.
    destruct (Z.eq_dec (previous_pts (probe_state w)) CLOCK_TIME_NONE) as [E|E].
    + destruct (callback_step buffer w zero) as (w1 & E1 & S1 & _);
        [by apply next_fps_unset|].
      rewrite E1. cbn [snd]. apply IH; rewrite S1; cbn [current_fps previous_pts].
      * done.
      * right. destruct Hts as [[_ H]|H]; [done|].
        by apply non_decreasing_cons in H.
    + destruct Hts as [[H _]|Hts]; [done|].
      destruct (Z.eq_dec (pts buffer) (previous_pts (probe_state w))) as [Et|Et].
      * rewrite zero_delta_escapes by done. cbn [snd]. apply IH; [done|].
        right. rewrite <- Et. by apply non_decreasing_cons in Hts.
      * assert (Hd : pts buffer - previous_pts (probe_state w) <> 0) by lia.
        destruct (rate_defined _ Hd) as (q & Eq & F & S).
        destruct (callback_step buffer w q) as (w1 & E1 & S1 & _);
          [by rewrite next_fps_stored|].
        rewrite E1. cbn [snd]. apply IH; rewrite S1; cbn [current_fps previous_pts].
        -- split; [done|]. rewrite S. apply Z.ltb_ge.
           destruct Hts as [Hle _]. cbn in Hle. lia.
        -- right. by apply non_decreasing_cons in Hts.
  - rewrite deliver_cons. cbn [probe_callback_body snd]. by apply IH.
Qed.

Lemma deliver_no_timestamps infos : forall (w : world Overlay),
  timestamps infos = [] -> (deliver callback infos w).2 = w.
Proof.
  induction infos as [|[buffer|] rest IH]; intros w H; [done|done|].
  rewrite deliver_cons. cbn [probe_callback_body snd]. by apply IH.
Qed.

Lemma deliver_one_timestamp infos : forall (w : world Overlay),
  previous_pts (probe_state w) = CLOCK_TIME_NONE ->
  current_fps (probe_state w) = zero ->
  (length (timestamps infos) <= 1)%nat ->
  current_fps (probe_state (deliver callback infos w).2) = zero.
Proof.
  induction infos as [|[buffer|] rest IH]; intros w Hp Hz Hl; [done| |].
  - rewrite deliver_cons.
    destruct (callback_step buffer w zero) as (w1 & E1 & S1 & _);
      [by apply next_fps_unset|].
    rewrite E1. cbn [snd]. rewrite deliver_no_timestamps; [by rewrite S1|].
    change (timestamps (Some buffer :: rest))
      with (pts buffer :: timestamps rest) in Hl.
    destruct (timestamps rest); [done|]. cbn in Hl. lia.
  - rewrite deliver_cons. cbn [probe_callback_body snd]. by apply IH.
Qed.

(** C9, amended: after any sequence of invocations from the fresh state
    in which the timestamps of the buffers never decrease, the stored rate
    is not below 0.0; and after invocations that carried at most one
    timestamp it is 0.0. *)
Theorem rate_never_negative (infos : list (option Buffer)) (ov : Overlay) :
  non_decreasing (timestamps infos) ->
  let w' := (deliver callback infos (mkWorld fresh_state ov [])).2 in
  is_negative (current_fps (probe_state w')) = false /\
  ((length (timestamps infos) <= 1)%nat ->
   current_fps (probe_state w') = zero).
Proof.
  intros H w'. subst w'. split.
  - destruct (deliver_non_decreasing infos (mkWorld fresh_state ov []))
      as [F S]; [done|by left|].
    by apply not_negative.
  - intros Hl. by apply deliver_one_timestamp.
Qed.
End Tap.

End FpsProbeFacts.

(* ===================================================================== *)
(** * Properties of the task1 tap *)
(* ===================================================================== *)

Module OpenCVTapFacts.
Import PyFloat PyVal Gst FpsProbe OpenCVTap.

(** The module-level dictionary has no key ['previous_pts']: with a buffer
    and an overlay, the first subscript raises KeyError and the callback
    leaves the globals as they were, so the dictionary never gains the
    key. *)
Lemma fps_probe_callback_raises {Overlay}
    (set_property : Overlay -> string -> string -> Overlay * option exn)
    (buffer : Buffer) (ov : Overlay) (tr : list event) :
  let g := mkGlobals initial_fps_probe_state (Some ov) tr in
  fps_probe_callback set_property (Some buffer) g
  = (Raised (KeyError "previous_pts"), g).
Proof. reflexivity. Qed.

(** Without a buffer, or before the overlay exists, the callback returns
    the pass-through result and touches nothing. *)
Lemma fps_probe_callback_early_return {Overlay}
    (set_property : Overlay -> string -> string -> Overlay * option exn)
    (info : option Buffer) (g : globals Overlay) :
  info = None \/ textoverlay g = None ->
  fps_probe_callback set_property info g = (Returned PAD_PROBE_OK, g).
Proof.
  unfold fps_probe_callback.
  intros [->| ->]; [done|]. by destruct info.
Qed.

End OpenCVTapFacts.

(* ===================================================================== *)
(** * Properties of the pad-added handlers *)
(* ===================================================================== *)

Module PadAddedFacts.
Import Gst PadAdded.

Section Engine.
Variable negotiate : Pad -> Pad -> PadLinkReturn.

Lemma successful_links_app tr1 tr2 :
  successful_links (tr1 ++ tr2) = successful_links tr1 ++ successful_links tr2.
Proof. apply omap_app. Qed.

Lemma stderr_lines_app tr1 tr2 :
  stderr_lines (tr1 ++ tr2) = stderr_lines tr1 ++ stderr_lines tr2.
Proof. apply omap_app. Qed.

Lemma pad_link_ok src sink pads :
  pad_link negotiate src sink = (PAD_LINK_OK, pads) ->
  pads = (with_peer src (Some (pad_name sink)),
          with_peer sink (Some (pad_name src))).
Proof.
  unfold pad_link. destruct (is_linked src || is_linked sink); [done|].
  destruct (negotiate src sink); by intros [= <-].
Qed.

Lemma pad_link_not_ok src sink ret pads :
  pad_link negotiate src sink = (ret, pads) ->
  ret <> PAD_LINK_OK -> pads = (src, sink).
Proof.
  unfold pad_link. destruct (is_linked src || is_linked sink); [by intros [= <- <-]|].
  destruct (negotiate src sink); by intros [= <- <-].
Qed.

(** The shared lines, by the engine's answer. *)
Lemma link_and_report_spec pad target announce :
  let '(ret, linked) := pad_link negotiate pad target in
  exists out,
    link_and_report negotiate pad target announce = (Returned tt, linked, out) /\
    link_calls out = [(pad_name pad, pad_name target, ret)] /\
    successful_links out =
      (if link_ok ret then [(pad_name pad, pad_name target)] else []) /\
    (ret = PAD_LINK_OK -> stderr_lines out = []) /\
    (ret <> PAD_LINK_OK -> stderr_lines out <> []).
Proof.
  unfold link_and_report.
  destruct (pad_link negotiate pad target) as [ret linked].
  eexists. split; [reflexivity|]. by destruct ret.
Qed.

Lemma handler_contract handler raw_video announce skip :
  (forall element pad target, is_linked pad = true ->
     exists out, handler element pad target = (Returned tt, (pad, target), out) /\
       link_calls out = [] /\ successful_links out = [] /\ stderr_lines out = []) ->
  (forall element pad target, is_linked pad = false -> raw_video pad = Some false ->
     handler element pad target
     = (Returned tt, (pad, target), skip element pad target) /\
     link_calls (skip element pad target) = [] /\
     stderr_lines (skip element pad target) = []) ->
  (forall element pad target, is_linked pad = false -> raw_video pad = Some true ->
     exists d,
     handler element pad target
     = (let '(r, pads, out) :=
          link_and_report negotiate pad target (announce target) in
        (r, pads, Stdout d :: out))) ->
  pad_added_contract negotiate handler raw_video.
Proof.
  intros Hlinked Hskip Hlink element pad target.
  destruct (handler element pad target) as [[r pads] out] eqn:E.
  split; [|split; [|split]].
  - intros L K. destruct (Hskip element pad target L K) as (E' & C & S).
    rewrite E in E'. by injection E' as -> -> ->.
  - intros L K. destruct (Hlink element pad target L K) as [d E'].
    rewrite E in E'.
    pose proof (link_and_report_spec pad target (announce target)) as R.
    destruct (pad_link negotiate pad target) as [ret linked] eqn:P.
    destruct R as (out' & ER & C & _ & S1 & S2). rewrite ER in E'.
    injection E' as -> -> ->.
    split; [done|]. split; [done|]. split; [done|]. split.
    + intros ->. apply pad_link_ok in P as ->.
      split; [done|]. split; [done|]. by apply S1.
    + intros N. split; [by apply (pad_link_not_ok _ _ _ _ P)|by apply S2].
  - intros L. destruct (Hlinked element pad target L) as (out' & E' & C & _ & S).
    rewrite E in E'. by injection E' as -> -> ->.
  - intros L K A. destruct (Hlink element pad target L K) as [d E'].
    rewrite E in E'.
    pose proof (link_and_report_spec pad target (announce target)) as R.
    destruct (pad_link negotiate pad target) as [ret linked] eqn:P.
    cbn [fst] in A. subst ret.
    destruct R as (out' & ER & _ & SL & S1 & _). rewrite ER in E'.
    injection E' as -> -> ->.
    apply pad_link_ok in P as ->. cbn [fst snd].
    destruct (Hlinked element (with_peer pad (Some (pad_name target)))
                (with_peer target (Some (pad_name pad))) eq_refl)
      as (out2 & E2 & _ & SL2 & S2).
    rewrite E2.
    repeat split.
    + rewrite successful_links_app.
      change (successful_links (Stdout d :: out')) with (successful_links out').
      by rewrite SL, SL2.
    + rewrite stderr_lines_app.
      change (stderr_lines (Stdout d :: out')) with (stderr_lines out').
      by rewrite (S1 eq_refl), S2.
Qed.

(** C6, amended: both pad-added handlers keep [pad_added_contract]; for
    [on_pad_added] the media type is that of a pad that has current
    caps. *)
Theorem pad_added_handlers_contract :
  pad_added_contract negotiate (on_pad_added_for_file negotiate) raw_video_for_file /\
  pad_added_contract negotiate (on_pad_added negotiate) raw_video_current.
Proof.
  split.
  - apply (handler_contract _ _
      (fun _ => "Linking video pad to queue sink...")
      (fun element pad _ =>
         [Stdout ("Dynamic pad '" +:+ pad_name pad +:+ "' added by '"
                  +:+ element +:+ "'");
          Stdout ("Ignoring non-raw-video pad: " +:+
                  match queried_caps pad with
                  | Some c => to_string c | None => "None" end)])).
    + intros element pad target L. unfold on_pad_added_for_file. rewrite L.
      by eexists.
    + intros element pad target L [= K]. unfold on_pad_added_for_file.
      rewrite L, K. done.
    + intros element pad target L [= K]. unfold on_pad_added_for_file.
      rewrite L, K. eexists. reflexivity.
  - apply (handler_contract _ _
      (fun target => "Linking video pad to " +:+ parent_name target
                     +:+ "'s sink pad")
      (fun element pad _ =>
         [Stdout ("Dynamic pad '" +:+ pad_name pad +:+ "' added by '"
                  +:+ element +:+ "'");
          Stdout ("Ignoring non-raw-video pad: " +:+
                  match current_caps pad with
                  | Some c => structure_name c | None => "" end)])).
    + intros element pad target L. unfold on_pad_added. rewrite L.
      by eexists.
    + intros element pad target L K. unfold on_pad_added, raw_video_current in *.
      rewrite L. destruct (current_caps pad) as [c|]; [|done].
      injection K as ->. done.
    + intros element pad target L K. unfold on_pad_added, raw_video_current in *.
      rewrite L. destruct (current_caps pad) as [c|]; [|done].
      injection K as ->. eexists. reflexivity.
Qed.
End Engine.

End PadAddedFacts.

(* ===================================================================== *)
(** * Properties of the frame bridge *)
(* ===================================================================== *)

Module BridgeFacts.
Import Gst Bridge.

Lemma preserved_refl h : preserved h h.
Proof. by intros l _. Qed.

Lemma preserved_trans h1 h2 h3 : preserved h1 h2 -> preserved h2 h3 -> preserved h1 h3.
Proof.
  intros H12 H23 l Hl. rewrite <- (H12 l Hl). apply H23.
  by rewrite (H12 l Hl).
Qed.

Lemma alloc_fresh h content l h' :
  alloc h content = (l, h') -> h !! l = None /\ preserved h h'.
Proof.
  unfold alloc. intros [= <- <-].
  assert (Hf : h !! fresh (dom h) = None).
  { apply not_elem_of_dom. apply is_fresh. }
  split; [done|]. intros k [v Hk]. apply lookup_insert_ne. congruence.
Qed.

Lemma copy_fresh h a a' h' :
  copy h a = (a', h') -> h !! base a' = None /\ preserved h h'.
Proof.
  unfold copy. destruct (alloc h (pixels h a)) as [l h1] eqn:E.
  intros [= <- <-]. by apply alloc_fresh in E.
Qed.

Lemma store_other h a new k : k <> base a -> store h a new !! k = h !! k.
Proof. intros Hk. unfold store. by apply lookup_insert_ne. Qed.

Section OpenCV.
Variable contour : Type.
Variable red_contours : bytes -> Z * Z * Z -> list contour.
Variable area_gt : contour -> Z -> bool.
Variable boundingRect : contour -> Z * Z * Z * Z.
Variable rectangle :
  bytes -> Z * Z * Z -> Z * Z -> Z * Z -> Z * Z * Z -> Z -> bytes.

Local Abbreviation process :=
  (process_frame_opencv contour red_contours area_gt boundingRect rectangle).
Local Abbreviation new_sample :=
  (on_new_sample contour red_contours area_gt boundingRect rectangle).

(** The transform returns the array it was given and writes to no other
    block than that array's. *)
Lemma process_frame_opencv_writes h frame :
  fst (process h frame) = frame /\
  forall k, k <> base frame -> snd (process h frame) !! k = h !! k.
Proof.
  unfold process_frame_opencv. cbn [fst snd]. split; [done|]. intros k Hk.
  generalize (red_contours (pixels h frame) (shape frame)) as cs.
  intros cs. revert h. induction cs as [|c cs IH]; intros h; [done|].
  cbn [fold_left]. rewrite IH.
  destruct (area_gt c MIN_CONTOUR_AREA); [|done].
  destruct (boundingRect c) as [[[x y] w] hh]. by apply store_other.
Qed.

Lemma update_caps_mem caps g : mem (update_caps caps g) = mem g.
Proof.
  unfold update_caps.
  destruct (last_caps g) as [last|]; [destruct (negb _)|]; done.
Qed.

Lemma update_caps_pushed caps g :
  pushed (trace (update_caps caps g)) = pushed (trace g).
Proof.
  unfold update_caps.
  destruct (last_caps g) as [last|]; [destruct (negb _)|]; try done;
    cbn [trace]; unfold pushed; rewrite omap_app; cbn; by rewrite app_nil_r.
Qed.

Lemma update_caps_appsrc caps g :
  appsrc (update_caps caps g) = None <-> appsrc g = None.
Proof.
  unfold update_caps.
  destruct (last_caps g) as [last|]; [destruct (negb _)|]; try done;
    cbn [appsrc]; by destruct (appsrc g).
Qed.

Lemma push_processed_mem buffer frame push_ret g :
  preserved (mem g) (mem (push_processed buffer frame push_ret g)).
Proof.
  unfold push_processed. destruct (appsrc g); [|apply preserved_refl].
  destruct (tobytes (mem g) frame) as [data h] eqn:E. cbn [mem].
  by apply alloc_fresh in E as [_ ?].
Qed.

Lemma push_processed_pushed buffer frame push_ret g :
  exists news,
    pushed (trace (push_processed buffer frame push_ret g))
    = pushed (trace g) ++ news /\
    Forall (same_timing buffer) news /\
    (appsrc g <> None -> length news = 1%nat).
Proof.
  unfold push_processed. destruct (appsrc g) as [src|].
  - destruct (tobytes (mem g) frame) as [data h]. cbn [trace memory pts dts duration offset].
    eexists [_]. split; [|split].
    + unfold pushed. rewrite !omap_app. cbn [omap]. 
      replace (omap _ (if flow_ok push_ret then [] else _)) with (@nil Buffer)
        by (by destruct (flow_ok push_ret)).
      reflexivity.
    + by repeat constructor.
    + done.
  - exists []. by rewrite app_nil_r.
Qed.

(** C10: whatever the callback is given and whatever OpenCV draws, every
    block of memory that existed when [on_new_sample] was called, the
    pulled buffer's among them, holds the same bytes when it returns or
    raises. *)
Theorem source_frame_untouched
    (pulled : option Sample) (map_success : bool) (push_ret : FlowReturn)
    (g : globals) :
  preserved (mem g) (mem (snd (new_sample pulled map_success push_ret g))).
Proof.
  unfold on_new_sample. destruct pulled as [sample|]; [|apply preserved_refl].
  destruct (sample_caps sample) as [caps|]; [|apply preserved_refl].
  destruct map_success; cbn [negb snd mem];
    [|rewrite update_caps_mem; apply preserved_refl].
  destruct (np_ndarray _ _ _) as [frame|e];
    [|cbn [snd]; rewrite update_caps_mem; apply preserved_refl].
  destruct (copy _ frame) as [frame_copy h1] eqn:Ec.
  destruct (process h1 frame_copy) as [processed_frame h2] eqn:Ep.
  cbn [snd]. rewrite update_caps_mem in Ec.
  apply copy_fresh in Ec as [Hnew H1].
  eapply preserved_trans; [|apply push_processed_mem]. cbn [mem].
  intros l Hl. rewrite <- (H1 l Hl).
  pose proof (process_frame_opencv_writes h1 frame_copy) as [_ Hw].
  rewrite Ep in Hw. apply Hw. intros ->. rewrite Hnew in Hl. by destruct Hl.
Qed.

(** C7: the buffers that one call of [on_new_sample] hands to
    ["push-buffer"] carry the presentation timestamp, decode timestamp,
    duration and offset of the buffer of the pulled sample; and one buffer
    is handed over whenever [appsrc] exists, the sample has caps, the
    buffer maps and holds at least [height * width * 3] bytes. *)
Theorem pushed_frame_keeps_timing
    (pulled : option Sample) (map_success : bool) (push_ret : FlowReturn)
    (g : globals) :
  exists news,
    pushed (trace (snd (new_sample pulled map_success push_ret g)))
    = pushed (trace g) ++ news /\
    Forall (fun nb => exists sample,
              pulled = Some sample /\ same_timing (sample_buffer sample) nb)
           news /\
    (forall sample caps,
       pulled = Some sample -> sample_caps sample = Some caps ->
       map_success = true -> appsrc g <> None ->
       0 <= height caps -> 0 <= width caps ->
       height caps * width caps * 3
         <= Z.of_nat (length (block (mem g) (memory (sample_buffer sample)))) ->
       length news = 1%nat).
Proof.
  unfold on_new_sample. destruct pulled as [sample|];
    [|by exists []; rewrite app_nil_r].
  destruct (sample_caps sample) as [caps|] eqn:Ecaps.
  2:{ exists []. cbn [snd trace]. unfold pushed. rewrite omap_app.
      split; [done|]. split; [done|].
      intros sample' caps' [= <-] Hc. congruence. }
  destruct map_success; cbn [negb].
  2:{ exists []. cbn [snd trace]. unfold pushed. rewrite omap_app.
      fold (pushed (trace (update_caps caps g))).
      rewrite update_caps_pushed.
      split; [done|]. split; [done|]. intros; congruence. }
  destruct (np_ndarray _ _ _) as [frame|e] eqn:En.
  - destruct (copy _ frame) as [frame_copy h1].
    destruct (process h1 frame_copy) as [processed_frame h2]. cbn [snd].
    match goal with
    | |- context [push_processed ?b ?f ?r ?g0] =>
        destruct (push_processed_pushed b f r g0) as (news & E & F & L)
    end.
    cbn [trace appsrc] in E, L. rewrite update_caps_pushed in E.
    exists news. split; [done|]. split.
    + eapply Forall_impl; [exact F|]. intros nb T. by exists sample.
    + intros sample' caps' [= <-] _ _ Hsrc _ _ _. apply L.
      by rewrite update_caps_appsrc.
  - exists []. cbn [snd]. rewrite update_caps_pushed, app_nil_r.
    split; [done|]. split; [done|].
    intros sample' caps' [= <-] Hc _ _ Hh Hw Hlen. exfalso.
    rewrite Ecaps in Hc. injection Hc as <-.
    unfold np_ndarray in En. rewrite update_caps_mem in En.
    destruct (Z.ltb_spec (height caps) 0); [lia|].
    destruct (Z.ltb_spec (width caps) 0); [lia|]. cbn [orb] in En.
    destruct (Z.ltb_spec (Z.of_nat (length (block (mem g) (memory (sample_buffer sample)))))
                (height caps * width caps * 3)); [lia|done].
Qed.
End OpenCV.

End BridgeFacts.

(* ===================================================================== *)
(** * The callbacks on concrete inputs *)
(* ===================================================================== *)

Module Scenarios.
Import PyFloat Gst FpsProbe FpsProbeFacts.

(** Three frames a thirtieth of a second apart, through the broadcaster's
    tap. *)
Example broadcaster_three_frames :
  deliver (Broadcaster.probe_callback accepting_overlay)
    (frames [0; 33333333; 66666666]) (mkWorld fresh_state "" [])
  = ([Returned PAD_PROBE_OK; Returned PAD_PROBE_OK; Returned PAD_PROBE_OK],
     mkWorld {| previous_pts := 66666666;
                current_fps := S754_finite false 8444249385762174 (-48) |}
       "Broadcast FPS: 30.0"
       [SetProperty "text" "Broadcast FPS: 0.0";
        SetProperty "text" "Broadcast FPS: 30.0";
        SetProperty "text" "Broadcast FPS: 30.0"]).
Proof. vm_compute. reflexivity. Qed.

Lemma tap_reports_spec_rates_witness :
  Forall is_guint64 [0; 33333333; 66666666] /\
  strictly_increasing [0; 33333333; 66666666] /\
  exists rates,
    spec_rates [0; 33333333; 66666666] = map Returned rates /\
    let '(rs, w') :=
      deliver (Broadcaster.probe_callback accepting_overlay)
        (frames [0; 33333333; 66666666]) (mkWorld fresh_state "" []) in
    rs = map (fun _ => Returned PAD_PROBE_OK) [0; 33333333; 66666666] /\
    labels (trace w') = map (fun r => "Broadcast FPS: " +:+ format_1f r) rates /\
    previous_pts (probe_state w')
      = default CLOCK_TIME_NONE (last [0; 33333333; 66666666]) /\
    current_fps (probe_state w') = default zero (last rates).
Proof.
  assert (R : Forall is_guint64 [0; 33333333; 66666666])
    by (repeat constructor; unfold is_guint64; lia).
  assert (I : strictly_increasing [0; 33333333; 66666666])
    by (cbn; lia).
  split; [exact R|]. split; [exact I|].
  exact (tap_reports_spec_rates accepting_overlay "Broadcast FPS: "
           [0; 33333333; 66666666] "" R I).
Defined.

(** C2 as stated fails where the new timestamp equals the stored one: the
    second of two frames with the timestamp 40 makes the broadcaster's
    callback raise ZeroDivisionError. *)
Lemma equal_timestamps_raise :
  fst (deliver (Broadcaster.probe_callback accepting_overlay)
         (frames [40; 40]) (mkWorld fresh_state "" []))
  = [Returned PAD_PROBE_OK; Raised (ZeroDivisionError "division by zero")].
Proof. vm_compute. reflexivity. Qed.

Lemma non_positive_delta_outcome_witness :
  10 <> CLOCK_TIME_NONE /\
  exists q w',
    Broadcaster.probe_callback accepting_overlay (Some (buffer_at 5))
      (mkWorld {| previous_pts := 10; current_fps := zero |} "" [])
    = (Returned PAD_PROBE_OK, w') /\
    int_truediv 1000000000 (5 - 10) = Returned q /\
    current_fps (probe_state w') = q /\
    is_finite q = true /\ sign_bit q = true.
Proof.
  assert (N : 10 <> CLOCK_TIME_NONE) by (unfold CLOCK_TIME_NONE; lia).
  split; [exact N|].
  apply (proj1 (non_positive_delta_outcome accepting_overlay "Broadcast FPS: "
                  (buffer_at 5)
                  (mkWorld {| previous_pts := 10; current_fps := zero |} "" [])
                  N)).
  cbn. lia.
Defined.

(** C8 as stated fails on the same input in the consumer: the exception of
    the division is raised outside the [try] block and leaves the
    callback. *)
Lemma division_error_escapes_tap :
  fst (deliver (Consumer.probe_callback failing_overlay)
         (frames [7; 7]) (mkWorld fresh_state "" []))
  = [Returned PAD_PROBE_OK; Raised (ZeroDivisionError "division by zero")].
Proof. vm_compute. reflexivity. Qed.

Lemma tap_passes_through_witness :
  exists w',
    Consumer.probe_callback failing_overlay (Some (buffer_at 7))
      (mkWorld {| previous_pts := 3; current_fps := zero |} "" [])
    = (Returned PAD_PROBE_OK, w') /\
    exists text,
      trace w' = [SetProperty "text" text] ++
        reported (snd (failing_overlay "" "text" text)).
Proof.
  apply (tap_passes_through failing_overlay "Consumer FPS: "
           (Some (buffer_at 7))
           (mkWorld {| previous_pts := 3; current_fps := zero |} "" [])).
  intros buffer [= <-] _. cbn. lia.
Defined.

(** What the failing overlay leaves on stderr. *)
Example failing_overlay_logged :
  snd (Consumer.probe_callback failing_overlay (Some (buffer_at 7))
         (mkWorld {| previous_pts := 3; current_fps := zero |} "" []))
  = mkWorld {| previous_pts := 7;
               current_fps := S754_finite false 8388608000000000 (-25) |} ""
      [SetProperty "text" "Consumer FPS: 250000000.0";
       Stderr "Error setting textoverlay property: no property text"].
Proof. vm_compute. reflexivity. Qed.

(** C9 as stated fails when a timestamp is earlier than the one before it:
    after the timestamps 10 and 5 the stored rate is below 0.0. *)
Lemma decreasing_timestamps_negative_rate :
  let w' := snd (deliver (Broadcaster.probe_callback accepting_overlay)
                   (frames [10; 5]) (mkWorld fresh_state "" [])) in
  current_fps (probe_state w') = S754_finite true 6710886400000000 (-25) /\
  is_negative (current_fps (probe_state w')) = true /\
  labels (trace w') = ["Broadcast FPS: 0.0"; "Broadcast FPS: -200000000.0"].
Proof. vm_compute. repeat split; reflexivity. Qed.

Lemma rate_never_negative_witness :
  let infos := [Some (buffer_at 0); None; Some (buffer_at 33333333);
                Some (buffer_at 33333333); Some (buffer_at 66666666)] in
  non_decreasing (timestamps infos) /\
  let w' := snd (deliver (Broadcaster.probe_callback accepting_overlay) infos
                   (mkWorld fresh_state "" [])) in
  is_negative (current_fps (probe_state w')) = false /\
  ((length (timestamps infos) <= 1)%nat -> current_fps (probe_state w') = zero).
Proof.
  intros infos.
  assert (N : non_decreasing (timestamps infos)) by (cbn; lia).
  split; [exact N|].
  exact (rate_never_negative accepting_overlay "Broadcast FPS: " infos "" N).
Defined.

(** ** Pad linking *)

Import PadAdded PadAddedFacts.

(** C6 as stated fails for a raw-video pad whose link the engine refuses.
    The file has a second video stream: its pad is free and raw video, the
    queue's sink pad is already taken, [link] answers [WAS_LINKED], the pad
    stays unlinked, and the second invocation for the same pad prints the
    error again; there is no successful link. *)
Lemma refused_link_repeats_error :
  let '(r1, pads1, out1) :=
    on_pad_added_for_file accept_all "decoder" second_src_pad taken_queue_sink in
  let '(r2, pads2, out2) :=
    on_pad_added_for_file accept_all "decoder" (fst pads1) (snd pads1) in
  raw_video_for_file second_src_pad = Some true /\
  is_linked second_src_pad = false /\
  is_linked (fst pads1) = false /\
  successful_links (out1 ++ out2) = [] /\
  stderr_lines out2 =
    ["ERROR: Failed to link decodebin video pad: "
     +:+ str_PadLinkReturn PAD_LINK_WAS_LINKED].
Proof. vm_compute. repeat split; reflexivity. Qed.

Lemma pad_added_twice_witness :
  let '(r1, pads1, out1) :=
    on_pad_added_for_file accept_all "decoder" (src_pad raw_video_caps) queue_sink in
  let '(r2, pads2, out2) :=
    on_pad_added_for_file accept_all "decoder" (fst pads1) (snd pads1) in
  r2 = Returned tt /\ pads2 = pads1 /\
  successful_links (out1 ++ out2) = [("src_0", "sink")] /\
  stderr_lines (out1 ++ out2) = [].
Proof.
  pose proof (proj1 (pad_added_handlers_contract accept_all)
                "decoder" (src_pad raw_video_caps) queue_sink) as H.
  destruct (on_pad_added_for_file accept_all "decoder"
              (src_pad raw_video_caps) queue_sink) as [[r1 pads1] out1].
  destruct H as (_ & _ & _ & H). apply H; reflexivity.
Defined.

(** An audio pad through the task1 handler: left alone. *)
Example audio_pad_ignored :
  on_pad_added accept_all "decoder" (src_pad audio_caps) queue_sink
  = (Returned tt, (src_pad audio_caps, queue_sink),
     [Stdout "Dynamic pad 'src_0' added by 'decoder'";
      Stdout "Ignoring non-raw-video pad: audio/x-raw"]).
Proof. vm_compute. reflexivity. Qed.

(** ** The frame bridge *)

Import Bridge BridgeFacts.

(** One sample through the bridge, with an OpenCV that paints the whole
    image: the pixels of block 7 stay, the copy (block 8) and the pushed
    bytes (block 9) are painted, and the pushed buffer carries 40, 41, 42
    and 43. *)
Example bridge_one_sample :
  let '(r, g) :=
    on_new_sample unit one_contour always_large unit_rect paint_all
      (Some pulled_sample) true FLOW_OK initial_globals in
  r = Returned FLOW_OK /\
  mem g !! 7%nat = sample_heap !! 7%nat /\
  mem g !! 8%nat = Some (replicate 6 Byte.xff) /\
  mem g !! 9%nat = Some (replicate 6 Byte.xff) /\
  pushed (trace g) =
    [{| memory := 9%nat; pts := 40; dts := 41; duration := 42; offset := 43 |}].
Proof. vm_compute. repeat split; reflexivity. Qed.

Lemma pushed_frame_keeps_timing_witness :
  exists nb,
    pushed (trace (snd (on_new_sample unit one_contour always_large unit_rect
                          paint_all (Some pulled_sample) true FLOW_OK
                          initial_globals)))
    = [nb] /\
    same_timing (sample_buffer pulled_sample) nb.
Proof.
  destruct (pushed_frame_keeps_timing unit one_contour always_large unit_rect
              paint_all (Some pulled_sample) true FLOW_OK initial_globals)
    as (news & E & F & L).
  assert (Hl : length news = 1%nat).
  { apply (L pulled_sample bgr_caps); try reflexivity; try done; cbn; lia. }
  destruct news as [|nb [|]]; try discriminate Hl.
  exists nb. split; [exact E|].
  apply Forall_cons in F as [(sample & [= <-] & T) _]. exact T.
Defined.

Lemma source_frame_untouched_witness :
  mem (snd (on_new_sample unit one_contour always_large unit_rect paint_all
              (Some pulled_sample) true FLOW_OK initial_globals)) !! 7%nat
  = Some [Byte.x01; Byte.x02; Byte.x03; Byte.x04; Byte.x05; Byte.x06; Byte.x07].
Proof.
  rewrite (source_frame_untouched unit one_contour always_large unit_rect
             paint_all (Some pulled_sample) true FLOW_OK initial_globals 7%nat).
  - reflexivity.
  - eexists. reflexivity.
Defined.

(** Without the copy the same transform would paint the buffer's own
    memory: the array made by [np.ndarray] views block 7. *)
Example transform_on_view_overwrites_source :
  match np_ndarray sample_heap (1, 2, 3) 7%nat with
  | Returned frame =>
      snd (process_frame_opencv unit one_contour always_large unit_rect
             paint_all sample_heap frame) !! 7%nat
      = Some (replicate 6 Byte.xff ++ [Byte.x07])
  | Raised _ => False
  end.
Proof. vm_compute. reflexivity. Qed.

(** ** The task1 tap and the registry *)

Import OpenCVTap Discovery.

(** The first frame through the task1 tap: KeyError. *)
Example task1_tap_first_frame :
  fst (fps_probe_callback accepting_overlay (Some (buffer_at 0))
         (mkGlobals initial_fps_probe_state (Some "") []))
  = Raised (KeyError "previous_pts").
Proof. reflexivity. Qed.

(** register("cam1", "rtsp://h:5051/cam1"), list, delete("cam1"), list. *)
Example register_list_delete_list :
  let '(r1, b1) :=
    register_broadcast "0a1b2c3d" 1700000000
      (request (JStr "cam1") (JStr "rtsp://h:5051/cam1")) ∅ in
  let r2 := list_broadcasts b1 in
  let '(r3, b3) := delete_broadcast "cam1" b1 in
  let r4 := list_broadcasts b3 in
  let cam1 := {| broadcaster_id := JStr "cam1";
                 stream_url := JStr "rtsp://h:5051/cam1";
                 status := "active"; created_at := 1700000000 |} in
  r1 = Returned (RecordBody cam1, 201) /\
  r2 = (ListBody [cam1], 200) /\
  r3 = (EmptyBody, 204) /\
  r4 = (ListBody [], 200).
Proof. vm_compute. repeat split; reflexivity. Qed.

(** A request with [null] for the id: the listed record has no id. *)
Example register_null_id_listed :
  let '(_, b1) :=
    register_broadcast "0a1b2c3d" 1700000000
      (request JNull (JStr "rtsp://h:5051/cam1")) ∅ in
  b1 !! "broadcaster-0a1b2c3d"
    = Some {| broadcaster_id := JNull;
              stream_url := JStr "rtsp://h:5051/cam1";
              status := "active"; created_at := 1700000000 |} /\
  list_broadcasts b1
    = (ListBody [{| broadcaster_id := JNull;
                    stream_url := JStr "rtsp://h:5051/cam1";
                    status := "active"; created_at := 1700000000 |}], 200).
Proof. vm_compute. repeat split; reflexivity. Qed.

End Scenarios.

(* ===================================================================== *)
(** * More on the discovery registry *)
(* ===================================================================== *)

Module RegistryServiceFacts.
Import Discovery RegistryService.

(** The view on a request object whose two fields are present: what it
    answers and what it stores. *)
Lemma register_broadcast_cases hex now (data : gmap string json) (broadcasts : registry) :
  match data !! "stream_url", data !! "broadcaster_id" with
  | None, _ =>
      register_broadcast hex now data broadcasts
      = (Raised (KeyError "stream_url"), broadcasts)
  | Some JNull, _ =>
      register_broadcast hex now data broadcasts
      = (Returned (ErrorBody "Missing stream_url", 400), broadcasts)
  | Some (JStr url), None =>
      register_broadcast hex now data broadcasts
      = (Raised (KeyError "broadcaster_id"), broadcasts)
  | Some (JStr url), Some given =>
      let key := match given with
                 | JNull => "broadcaster-" +:+ hex
                 | JStr s => s
                 end in
      let r := {| broadcaster_id := given; stream_url := JStr url;
                  status := "active"; created_at := now |} in
      register_broadcast hex now data broadcasts
      = (Returned (RecordBody r, 201), <[ key := r ]> broadcasts)
  end.
Proof.
  unfold register_broadcast, getitem.
  destruct (data !! "stream_url") as [[|url]|]; try done.
  destruct (data !! "broadcaster_id") as [given|]; [|done].
  cbn. by rewrite lookup_insert_eq.
Qed.

(** X1: registering the same explicit id again overwrites: after two
    registrations of one id the dictionary is what the second registration
    alone would have made it, and it has as many entries as after the first
    one. *)
Theorem register_same_id_overwrites
    h1 n1 h2 n2 (id url1 url2 : string) (broadcasts : registry) :
  let first := POST_broadcasts h1 n1 (request (JStr id) (JStr url1)) in
  let second := POST_broadcasts h2 n2 (request (JStr id) (JStr url2)) in
  serve [first; second] broadcasts = serve [second] broadcasts /\
  serve [first; second] broadcasts !! id
    = Some {| broadcaster_id := JStr id; stream_url := JStr url2;
              status := "active"; created_at := n2 |} /\
  size (serve [first; second] broadcasts) = size (serve [first] broadcasts).
Proof.
  intros first second. subst first second. cbn [serve foldl handle].
  pose proof (register_broadcast_cases h1 n1 (request (JStr id) (JStr url1))) as C1.
  pose proof (register_broadcast_cases h2 n2 (request (JStr id) (JStr url2))) as C2.
  unfold request in C1, C2 at 1 2. simplify_map_eq.
  rewrite !C1, !C2. cbn [snd]. rewrite insert_insert_eq. split; [done|].
  split; [apply lookup_insert_eq|].
  destruct (broadcasts !! id) as [r|] eqn:E.
  - by rewrite !map_size_insert_Some.
  - by rewrite !map_size_insert_None.
Qed.

(** X2: registering an id that is not in the dictionary and then deleting
    it gives the dictionary back as it was; the two answers are 201 and
    204. *)
Theorem register_then_delete_restores
    hex now (id url : string) (broadcasts : registry) :
  broadcasts !! id = None ->
  let '(r1, b1) :=
    register_broadcast hex now (request (JStr id) (JStr url)) broadcasts in
  let '(r2, b2) := delete_broadcast id b1 in
  (exists r, r1 = Returned (RecordBody r, 201)) /\
  r2 = (EmptyBody, 204) /\
  b2 = broadcasts.
Proof.
  intros Hfree.
  pose proof (register_broadcast_cases hex now (request (JStr id) (JStr url))
                broadcasts) as C.
  unfold request in C at 1 2. simplify_map_eq. rewrite C.
  unfold delete_broadcast. rewrite lookup_insert_eq.
  split; [by eexists|]. split; [done|]. by rewrite delete_insert_id.
Qed.

Lemma handle_keeps_stored_well (broadcasts : registry) rq :
  map_Forall stored_well broadcasts ->
  map_Forall stored_well (handle broadcasts rq).
Proof.
  intros H. destruct rq as [hex now data| |id]; cbn [handle]; [|done|].
  - pose proof (register_broadcast_cases hex now data broadcasts) as C.
    destruct (data !! "stream_url") as [[|url]|]; try (by rewrite C).
    destruct (data !! "broadcaster_id") as [given|]; [|by rewrite C].
    cbn zeta in C. rewrite C. cbn [snd].
    apply map_Forall_insert_2; [|done].
    split; [done|]. split; [done|].
    destruct given as [|s]; [right|by left]. split; [done|]. by eexists.
  - unfold delete_broadcast. destruct (broadcasts !! id); [|done].
    cbn [snd]. by apply map_Forall_delete.
Qed.

Lemma serve_keeps_stored_well (rqs : list incoming) : forall broadcasts : registry,
  map_Forall stored_well broadcasts ->
  map_Forall stored_well (serve rqs broadcasts).
Proof.
  unfold serve. induction rqs as [|rq rqs IH]; intros b H; [done|].
  cbn [foldl]. apply IH. by apply handle_keeps_stored_well.
Qed.

(** X3: whatever requests the registry has handled since it started empty,
    every record it holds is active, has an endpoint that is not [None],
    and carries as its id either the key it is stored under or [None] (then
    under a generated key). *)
Theorem served_registry_stored_well (rqs : list incoming) :
  map_Forall stored_well (serve rqs ∅).
Proof. apply serve_keeps_stored_well. apply map_Forall_empty. Qed.

(** X4: the listing answers 200 with exactly the records the dictionary
    holds: as many as it has entries, and a record is listed if and only if
    it is stored under some key. *)
Theorem list_broadcasts_complete (broadcasts : registry) :
  snd (list_broadcasts broadcasts) = 200 /\
  length (listed (list_broadcasts broadcasts)) = size broadcasts /\
  forall r, r ∈ listed (list_broadcasts broadcasts)
            <-> exists key, broadcasts !! key = Some r.
Proof.
  unfold list_broadcasts, listed. cbn [fst snd]. split; [done|]. split.
  - by rewrite length_map, length_map_to_list.
  - intros r. rewrite list_elem_of_fmap. split.
    + intros ([k r'] & -> & Hin). exists k. by apply elem_of_map_to_list.
    + intros [k Hk]. exists (k, r). split; [done|]. by apply elem_of_map_to_list.
Qed.

(** X5: a registration request that is not answered 201 stores nothing; one
    that is answered 201 stores the record of the answer under one key and
    leaves every other key as it was. *)
Theorem register_broadcast_frame hex now (data : gmap string json) (broadcasts : registry) :
  let '(resp, broadcasts') := register_broadcast hex now data broadcasts in
  (broadcasts' = broadcasts /\ forall r, resp <> Returned (RecordBody r, 201)) \/
  (exists key r,
     resp = Returned (RecordBody r, 201) /\
     broadcasts' !! key = Some r /\
     forall other, other <> key -> broadcasts' !! other = broadcasts !! other).
Proof.
  pose proof (register_broadcast_cases hex now data broadcasts) as C.
  destruct (data !! "stream_url") as [[|url]|]; try (rewrite C; by left).
  destruct (data !! "broadcaster_id") as [given|]; [|rewrite C; by left].
  cbn zeta in C. rewrite C. right. eexists _, _. split; [done|].
  split; [apply lookup_insert_eq|]. intros other Ho. by apply lookup_insert_ne.
Qed.

End RegistryServiceFacts.

(* ===================================================================== *)
(** * Properties of the HTTP clients *)
(* ===================================================================== *)

Module ClientsFacts.
Import Discovery RegistryService RegistryServiceFacts Clients.

Section Wire.
Variable json_error_is_request_exception : bool.
Variable http_date : Z -> string.

Local Abbreviation register_broadcaster :=
  (Clients.register_broadcaster json_error_is_request_exception).
Local Abbreviation deregister_broadcaster :=
  (Clients.deregister_broadcaster).
Local Abbreviation list_broadcasts :=
  (Clients.list_broadcasts json_error_is_request_exception).

Lemma register_payload_accepted hex now (id addr : string) (broadcasts : registry) :
  let r := {| broadcaster_id := JStr id;
              stream_url := JStr ("rtsp://" +:+ addr +:+ ":" +:+ RTSP_PORT +:+ id);
              status := "active"; created_at := now |} in
  register_broadcast hex now (register_payload id addr) broadcasts
  = (Returned (RecordBody r, 201), <[ id := r ]> broadcasts).
Proof.
  intros r.
  pose proof (register_broadcast_cases hex now (register_payload id addr)
                broadcasts) as C.
  unfold register_payload, request in C. simplify_map_eq. exact C.
Qed.

(** X6: a registration sent by [register_broadcaster] is always accepted by
    the registry: the view answers 201, stores under the broadcaster's id a
    record with that id and the URL "rtsp://" + address + ":5051" + id, and
    the client returns after printing the record it got back. *)
Theorem broadcaster_registration_accepted
    hex now (id addr : string) (broadcasts : registry) :
  let r := {| broadcaster_id := JStr id;
              stream_url := JStr ("rtsp://" +:+ addr +:+ ":" +:+ RTSP_PORT +:+ id);
              status := "active"; created_at := now |} in
  register_broadcaster (post_to http_date hex now broadcasts) id addr
  = (Done tt, [Say "Broadcaster registration successful!";
               Say "Response Body:";
               SayJson (Object (encode_record http_date r))]) /\
  snd (register_broadcast hex now (register_payload id addr) broadcasts)
  = <[ id := r ]> broadcasts.
Proof.
  intros r. unfold Clients.register_broadcaster, post_to.
  rewrite register_payload_accepted. done.
Qed.

(** X7: when the call of [requests] itself raises (the registry cannot be
    reached), each of the three client functions prints its error line and
    then raises UnboundLocalError, because its [except] clause reads the
    local [response] that was never assigned. *)
Theorem unreachable_registry_escapes (e id addr : string) (wanted : json) :
  register_broadcaster (fun _ => Refused e) id addr
  = (Escaped (UnboundLocalError "response"),
     [SayError "registering broadcaster" (ConnectionError e)]) /\
  deregister_broadcaster (fun _ => Refused e) id
  = (Escaped (UnboundLocalError "response"),
     [SayError ("deleting broadcaster " +:+ id) (ConnectionError e)]) /\
  list_broadcasts (Refused e) wanted
  = (Escaped (UnboundLocalError "response"),
     [SayError "listing broadcasts" (ConnectionError e)]).
Proof. done. Qed.

(** X8: the consumer's [list_broadcasts] returns a value only after an
    exchange that was answered with a status outside 400..599 and a JSON
    body; after a 4xx or 5xx answer it prints the error and the status and
    raises UnboundLocalError for [broadcasts_list]. *)
Theorem consumer_lookup_needs_good_answer (get : exchange) (wanted : json) :
  (forall v out, list_broadcasts get wanted = (Done v, out) ->
     exists response d,
       get = Answered response /\
       raise_for_status response = None /\
       decoded response = Some d) /\
  (forall response, get = Answered response ->
     400 <= status_code response < 600 ->
     exists out,
       list_broadcasts get wanted
       = (Escaped (UnboundLocalError "broadcasts_list"), out) /\
       SayStatus (status_code response) ∈ out).
Proof.
  split.
  - intros v out. unfold Clients.list_broadcasts.
    destruct get as [e|response]; [done|].
    destruct (raise_for_status response) eqn:R.
    { cbn. intros [=]. }
    destruct (decoded response) as [d|] eqn:D.
    + intros _. by exists response, d.
    + destruct json_error_is_request_exception; cbn; rewrite ?D; intros [=].
  - intros response -> [H1 H2]. unfold Clients.list_broadcasts, raise_for_status.
    destruct (Z.leb_spec 400 (status_code response)); [|lia].
    destruct (Z.ltb_spec (status_code response) 600); [|lia].
    cbn. eexists. split; [reflexivity|]. set_solver.
Qed.

Lemma scan_encoded (rs : list BroadcastRecord) (id : json) :
  scan (map (encode_record http_date) rs) id = Returned (resolve rs id).
Proof.
  induction rs as [|r rs IH]; [done|]. cbn [map scan resolve].
  unfold getitem at 1, encode_record at 1. simplify_map_eq. cbn [obind].
  case_bool_decide; [|done].
  unfold getitem, encode_record. by simplify_map_eq.
Qed.

Lemma lookup_scans_listing (rs : list BroadcastRecord) (wanted : json) :
  fst (list_broadcasts (get_listing http_date rs) wanted)
  = Done (resolve rs wanted).
Proof.
  unfold Clients.list_broadcasts, get_listing, flask.
  cbn. by rewrite scan_encoded.
Qed.

(** X9: when the registry answers with a listing, the consumer's loop over
    the decoded listing returns the endpoint of the first listed record
    whose id equals the wanted one, and [None] when there is none; when no
    id is wanted it has printed the listing before. *)
Theorem consumer_lookup_scans_listing (rs : list BroadcastRecord) (wanted : json) :
  list_broadcasts (get_listing http_date rs) wanted
  = (Done (resolve rs wanted),
     if is_None wanted
     then [Say "List of All Broadcasts:";
           SayJson (Array (map (encode_record http_date) rs))]
     else []).
Proof.
  unfold Clients.list_broadcasts, get_listing, flask.
  cbn. by rewrite scan_encoded.
Qed.

Lemma resolve_no_match (kvs : list (string * BroadcastRecord)) (id : string) :
  (forall k r, (k, r) ∈ kvs -> stored_well k r) ->
  (forall r, (id, r) ∈ kvs -> broadcaster_id r <> JStr id) ->
  resolve (map snd kvs) (JStr id) = JNull.
Proof.
  induction kvs as [|[k r] kvs IH]; intros Hw Hn; [done|].
  cbn [map snd resolve]. case_bool_decide as E.
  - exfalso. destruct (Hw k r) as (_ & _ & [Hk|[Hk _]]); [left| |congruence].
    rewrite E in Hk. injection Hk as <-. by apply (Hn r); [left|].
  - apply IH.
    + intros k' r' Hin. apply Hw. by right.
    + intros r' Hin. apply Hn. by right.
Qed.

Lemma resolve_match (kvs : list (string * BroadcastRecord)) (id : string) r :
  NoDup (map fst kvs) ->
  (forall k r, (k, r) ∈ kvs -> stored_well k r) ->
  (id, r) ∈ kvs -> broadcaster_id r = JStr id ->
  resolve (map snd kvs) (JStr id) = stream_url r.
Proof.
  induction kvs as [|[k r'] kvs IH]; intros Hnd Hw Hin Hid.
  - by apply elem_of_nil in Hin.
  - cbn [map fst] in Hnd. apply NoDup_cons in Hnd as [Hk Hnd].
    cbn [map snd resolve]. case_bool_decide as E.
    + destruct (Hw k r') as (_ & _ & [Hk'|[Hk' _]]); [left| |congruence].
      rewrite E in Hk'. injection Hk' as <-.
      apply elem_of_cons in Hin as [[= <-]|Hin]; [done|].
      exfalso. apply Hk. apply list_elem_of_fmap. by exists (id, r).
    + apply IH; try done.
      * intros k' r'' H. apply Hw. by right.
      * apply elem_of_cons in Hin as [[= <- <-]|Hin]; [done|done].
Qed.

(** Looking an id up in the listing of a dictionary whose records are
    stored well, in whatever order the records are listed. *)
Lemma resolve_listing (broadcasts : registry) (id : string) rs :
  rs ≡ₚ listed (Discovery.list_broadcasts broadcasts) ->
  map_Forall stored_well broadcasts ->
  resolve rs (JStr id)
  = match broadcasts !! id with
    | Some r => if bool_decide (broadcaster_id r = JStr id)
                then stream_url r else JNull
    | None => JNull
    end.
Proof.
  intros Hp Hw. unfold Discovery.list_broadcasts, listed in Hp. cbn [fst] in Hp.
  apply Permutation_map_inv in Hp as (kvs & -> & Hp).
  assert (Hin : forall k r, (k, r) ∈ kvs <-> broadcasts !! k = Some r).
  { intros k r. rewrite <- Hp. apply elem_of_map_to_list. }
  assert (Hw' : forall k r, (k, r) ∈ kvs -> stored_well k r).
  { intros k r H. apply Hin in H. by apply (Hw k r). }
  assert (Hnd : NoDup (map fst kvs)).
  { rewrite <- Hp. apply NoDup_fst_map_to_list. }
  destruct (broadcasts !! id) as [r|] eqn:E.
  - case_bool_decide as F.
    + apply (resolve_match _ id r); try done. by apply Hin.
    + apply resolve_no_match; [done|]. intros r' H.
      apply Hin in H. congruence.
  - apply resolve_no_match; [done|]. intros r' H.
    apply Hin in H. congruence.
Qed.

(** X10: whatever the registry handled before, once a broadcaster has
    registered through [register_broadcaster], a consumer that asks for the
    broadcaster's id gets the URL the broadcaster announced, in whatever
    order the registry lists its records. *)
Theorem registered_broadcaster_is_resolved
    (rqs : list incoming) hex now (id addr : string) :
  let before := serve rqs ∅ in
  let after :=
    snd (register_broadcast hex now (register_payload id addr) before) in
  fst (register_broadcaster (post_to http_date hex now before) id addr) = Done tt /\
  forall rs, rs ≡ₚ listed (Discovery.list_broadcasts after) ->
    fst (list_broadcasts (get_listing http_date rs) (JStr id))
    = Done (JStr ("rtsp://" +:+ addr +:+ ":" +:+ RTSP_PORT +:+ id)).
Proof.
  intros before after. subst after.
  unfold Clients.register_broadcaster, post_to.
  rewrite register_payload_accepted. split; [done|]. cbn [snd]. intros rs Hp.
  rewrite lookup_scans_listing, (resolve_listing _ _ _ Hp).
  - rewrite lookup_insert_eq. cbn. by rewrite bool_decide_eq_true_2.
  - apply map_Forall_insert_2;
      [|apply serve_keeps_stored_well, map_Forall_empty].
    split; [done|]. split; [done|by left].
Qed.

(** X11: a broadcast registered with [null] for its id cannot be found by
    the consumer under the id the registry generated for it: the lookup
    returns [None], because the listed record carries no id. *)
Theorem generated_id_is_not_resolved
    (rqs : list incoming) hex now (url : string) :
  let before := serve rqs ∅ in
  let after :=
    snd (register_broadcast hex now (request JNull (JStr url)) before) in
  after !! ("broadcaster-" +:+ hex)
  = Some {| broadcaster_id := JNull; stream_url := JStr url;
            status := "active"; created_at := now |} /\
  forall rs, rs ≡ₚ listed (Discovery.list_broadcasts after) ->
    fst (list_broadcasts (get_listing http_date rs)
           (JStr ("broadcaster-" +:+ hex)))
    = Done JNull.
Proof.
  intros before after. subst after.
  pose proof (register_broadcast_cases hex now (request JNull (JStr url)) before) as C.
  unfold request in C at 1 2. simplify_map_eq. rewrite C. cbn [snd].
  split; [apply lookup_insert_eq|]. intros rs Hp.
  rewrite lookup_scans_listing, (resolve_listing _ _ _ Hp).
  - by rewrite lookup_insert_eq.
  - apply map_Forall_insert_2;
      [|apply serve_keeps_stored_well, map_Forall_empty].
    split; [done|]. split; [done|]. right. split; [done|]. by eexists.
Qed.
End Wire.

End ClientsFacts.

(* ===================================================================== *)
(** * More on the frame-rate taps *)
(* ===================================================================== *)

Module TapFacts.
Import PyFloat TrueDivFacts Gst FpsProbe FpsProbeFacts Runs.

Lemma one_call_ignores_overlay {O1 O2 : Type}
    (sp1 : O1 -> string -> string -> O1 * option exn)
    (sp2 : O2 -> string -> string -> O2 * option exn)
    (label : string) (info : option Buffer) (w1 : world O1) (w2 : world O2) :
  probe_state w1 = probe_state w2 ->
  labels (trace w1) = labels (trace w2) ->
  let '(r1, w1') := probe_callback_body sp1 label info w1 in
  let '(r2, w2') := probe_callback_body sp2 label info w2 in
  r1 = r2 /\ probe_state w1' = probe_state w2' /\
  labels (trace w1') = labels (trace w2').
Proof.
  intros Hs Hl. unfold probe_callback_body. destruct info as [buffer|]; [|done].
  rewrite Hs. destruct (next_fps (probe_state w2) (pts buffer)) as [fps|e]; [|done].
  destruct (sp1 _ _ _) as [ov1 raised1], (sp2 _ _ _) as [ov2 raised2].
  cbn [probe_state trace]. split; [done|]. split; [done|].
  rewrite !labels_app, !labels_reported, Hl. done.
Qed.

(** X12: the overlay has no say in the estimate: fed the same probe infos
    from the same stored state, the callback returns the same results,
    stores the same timestamp and rate and hands over the same labels,
    whether [set_property] succeeds or raises. *)
Theorem overlay_does_not_steer_estimate {O1 O2 : Type}
    (sp1 : O1 -> string -> string -> O1 * option exn)
    (sp2 : O2 -> string -> string -> O2 * option exn)
    (label : string) (infos : list (option Buffer))
    (st : ProbeState) (ov1 : O1) (ov2 : O2) :
  let '(rs1, w1) :=
    deliver (probe_callback_body sp1 label) infos (mkWorld st ov1 []) in
  let '(rs2, w2) :=
    deliver (probe_callback_body sp2 label) infos (mkWorld st ov2 []) in
  rs1 = rs2 /\ probe_state w1 = probe_state w2 /\
  labels (trace w1) = labels (trace w2).
Proof.
  assert (G : forall (w1 : world O1) (w2 : world O2),
    probe_state w1 = probe_state w2 ->
    labels (trace w1) = labels (trace w2) ->
    let '(rs1, w1') := deliver (probe_callback_body sp1 label) infos w1 in
    let '(rs2, w2') := deliver (probe_callback_body sp2 label) infos w2 in
    rs1 = rs2 /\ probe_state w1' = probe_state w2' /\
    labels (trace w1') = labels (trace w2')).
  { induction infos as [|info rest IH]; intros w1 w2 Hs Hl; [done|].
    cbn [deliver].
    pose proof (one_call_ignores_overlay sp1 sp2 label info w1 w2 Hs Hl) as H.
    destruct (probe_callback_body sp1 label info w1) as [r1 w1'].
    destruct (probe_callback_body sp2 label info w2) as [r2 w2'].
    destruct H as (-> & Hs' & Hl').
    specialize (IH w1' w2' Hs' Hl').
    destruct (deliver _ rest w1') as [rs1 w1''].
    destruct (deliver _ rest w2') as [rs2 w2''].
    destruct IH as (-> & ? & ?). done. }
  by apply G.
Qed.

(** X13: a buffer without a timestamp ([pts] is CLOCK_TIME_NONE) restarts
    the estimate: whatever is stored, the callback returns the pass-through
    result for it, and for the buffer after it reports 0.0 and stores that
    buffer's timestamp. *)
Theorem untimed_buffer_restarts_estimate {Overlay}
    (set_property : Overlay -> string -> string -> Overlay * option exn)
    (label : string) (w : world Overlay) (buffer next : Buffer) :
  pts buffer = CLOCK_TIME_NONE ->
  let '(rs, w') :=
    deliver (probe_callback_body set_property label)
      [Some buffer; Some next] w in
  rs = [Returned PAD_PROBE_OK; Returned PAD_PROBE_OK] /\
  probe_state w' = {| previous_pts := pts next; current_fps := zero |} /\
  exists q, labels (trace w')
            = labels (trace w) ++ [label +:+ format_1f q; label +:+ "0.0"].
Proof.
  intros Hn.
  assert (exists q, next_fps (probe_state w) (pts buffer) = Returned q) as [q Eq].
  { destruct (Z.eq_dec (previous_pts (probe_state w)) CLOCK_TIME_NONE) as [E|E].
    - exists zero. by apply next_fps_unset.
    - rewrite next_fps_stored by done.
      assert (Hd : pts buffer - previous_pts (probe_state w) <> 0) by lia.
      destruct (rate_defined _ Hd) as (q & Eq & _). by exists q. }
  destruct (callback_step set_property label buffer w q Eq) as (w1 & E1 & S1 & T1).
  destruct (callback_step set_property label next w1 zero) as (w2 & E2 & S2 & T2).
  { apply next_fps_unset. by rewrite S1. }
  cbn [deliver]. rewrite E1, E2. split; [done|]. split; [done|].
  exists q. rewrite T2, T1, !labels_app, !labels_reported, !app_nil_r.
  by rewrite <- app_assoc.
Qed.

(** X14: the task1 tap never reaches the overlay.  From the module's
    initial dictionary, with an overlay in place, every probe info that has
    a buffer makes the callback raise KeyError for 'previous_pts', every one
    without a buffer returns the pass-through result, and the dictionary and
    the overlay stay as they were: [set_property] is never called. *)
Theorem task1_tap_never_sets_label {Overlay}
    (set_property : Overlay -> string -> string -> Overlay * option exn)
    (infos : list (option Buffer)) (ov : Overlay) :
  feed set_property infos (OpenCVTap.mkGlobals OpenCVTap.initial_fps_probe_state (Some ov) [])
  = (map (fun info => match info with
                      | Some _ => Raised (KeyError "previous_pts")
                      | None => Returned PAD_PROBE_OK
                      end) infos,
     OpenCVTap.mkGlobals OpenCVTap.initial_fps_probe_state (Some ov) []).
Proof.
  induction infos as [|[buffer|] rest IH]; [done| |]; cbn [feed map].
  - change (OpenCVTap.fps_probe_callback set_property (Some buffer) _)
      with (Raised (A:=PadProbeReturn) (KeyError "previous_pts"),
            OpenCVTap.mkGlobals OpenCVTap.initial_fps_probe_state (Some ov) []).
    cbv beta iota. by rewrite IH.
  - change (OpenCVTap.fps_probe_callback set_property None _)
      with (Returned PAD_PROBE_OK,
            OpenCVTap.mkGlobals OpenCVTap.initial_fps_probe_state (Some ov) []).
    cbv beta iota. by rewrite IH.
Qed.

End TapFacts.

(* ===================================================================== *)
(** * More on the pad-added handlers *)
(* ===================================================================== *)

Module PadEventsFacts.
Import Gst PadAdded PadAddedFacts Runs.

Section Engine.
Variable negotiate : Pad -> Pad -> PadLinkReturn.

(** The shared lines either change nothing and record no successful link,
    or link two free pads to each other and record that one link. *)
Lemma link_and_report_step pad target announce :
  let '(r, pads, out) := link_and_report negotiate pad target announce in
  r = Returned tt /\
  ((pads = (pad, target) /\ successful_links out = []) \/
   (is_linked pad = false /\ is_linked target = false /\
    pads = (with_peer pad (Some (pad_name target)),
            with_peer target (Some (pad_name pad))) /\
    successful_links out = [(pad_name pad, pad_name target)])).
Proof.
  unfold link_and_report, pad_link.
  destruct (is_linked pad) eqn:Lp; [cbn; by split; [|left]|].
  destruct (is_linked target) eqn:Lt; [cbn; by split; [|left]|].
  cbn [orb]. destruct (negotiate pad target); cbn; (split; [done|]);
    try (by left). by right.
Qed.

Lemma on_pad_added_for_file_step element pad target :
  let '(r, pads, out) := on_pad_added_for_file negotiate element pad target in
  r = Returned tt /\
  ((pads = (pad, target) /\ successful_links out = []) \/
   (is_linked pad = false /\ is_linked target = false /\
    pads = (with_peer pad (Some (pad_name target)),
            with_peer target (Some (pad_name pad))) /\
    successful_links out = [(pad_name pad, pad_name target)])).
Proof.
  unfold on_pad_added_for_file.
  destruct (is_linked pad) eqn:Lp; [cbv beta iota zeta; by split; [|left]|].
  cbv zeta. destruct (queried_caps pad) as [c|];
    [destruct (String.prefix _ _)|];
    [|cbv beta iota zeta; by split; [|left]..].
  pose proof (link_and_report_step pad target "Linking video pad to queue sink...") as H.
  destruct (link_and_report _ _ _ _) as [[r pads] out]. cbv beta iota zeta.
  destruct H as [-> H]. split; [done|]. rewrite Lp in H. exact H.
Qed.

Lemma on_pad_added_step element pad target :
  let '(r, pads, out) := on_pad_added negotiate element pad target in
  ((pads = (pad, target) /\ successful_links out = []) \/
   (is_linked pad = false /\ is_linked target = false /\
    pads = (with_peer pad (Some (pad_name target)),
            with_peer target (Some (pad_name pad))) /\
    successful_links out = [(pad_name pad, pad_name target)])).
Proof.
  unfold on_pad_added.
  destruct (is_linked pad) eqn:Lp; [cbv beta iota zeta; by left|].
  destruct (current_caps pad) as [caps|]; [|cbv beta iota zeta; by left].
  cbv zeta. destruct (String.prefix _ _); [|cbv beta iota zeta; by left].
  pose proof (link_and_report_step pad target
                ("Linking video pad to " +:+ parent_name target +:+ "'s sink pad")) as H.
  destruct (link_and_report _ _ _ _) as [[r pads] out]. cbv beta iota zeta.
  destruct H as [_ H]. rewrite Lp in H. exact H.
Qed.

(** X15: the handlers change the pads in one way only: by a link that the
    engine accepted, between a pad and a target that were both free, each
    then having the other as its peer.  In every other case (linked pad,
    other media type, no caps, refused link, exception) both pads are
    returned as they were: a handler never unlinks or relinks a pad. *)
Theorem handlers_only_link_free_pads element pad target :
  (let '(_, pads, out) := on_pad_added_for_file negotiate element pad target in
   (pads = (pad, target) /\ successful_links out = []) \/
   (is_linked pad = false /\ is_linked target = false /\
    pads = (with_peer pad (Some (pad_name target)),
            with_peer target (Some (pad_name pad))) /\
    successful_links out = [(pad_name pad, pad_name target)])) /\
  (let '(_, pads, out) := on_pad_added negotiate element pad target in
   (pads = (pad, target) /\ successful_links out = []) \/
   (is_linked pad = false /\ is_linked target = false /\
    pads = (with_peer pad (Some (pad_name target)),
            with_peer target (Some (pad_name pad))) /\
    successful_links out = [(pad_name pad, pad_name target)])).
Proof.
  split.
  - pose proof (on_pad_added_for_file_step element pad target) as H.
    destruct (on_pad_added_for_file _ _ _ _) as [[r pads] out]. by destruct H.
  - pose proof (on_pad_added_step element pad target) as H.
    by destruct (on_pad_added _ _ _ _) as [[r pads] out].
Qed.

Lemma pads_added_one_link handler :
  (forall element pad target,
     let '(_, pads, out) := handler element pad target in
     (pads = (pad, target) /\ successful_links out = []) \/
     (is_linked pad = false /\ is_linked target = false /\
      pads = (with_peer pad (Some (pad_name target)),
              with_peer target (Some (pad_name pad))) /\
      successful_links out = [(pad_name pad, pad_name target)])) ->
  forall element pads target,
    let '(_, target', out) := pads_added handler element pads target in
    (is_linked target = true ->
       target' = target /\ successful_links out = []) /\
    (successful_links out = [] /\ target' = target \/
     exists pad, pad ∈ pads /\ is_linked target = false /\
       successful_links out = [(pad_name pad, pad_name target)] /\
       target' = with_peer target (Some (pad_name pad))).
Proof.
  intros Hstep element pads. induction pads as [|pad rest IH]; intros target.
  - cbn. split; [done|by left].
  - cbn [pads_added]. specialize (Hstep element pad target).
    destruct (handler element pad target) as [[r [pad' target1]] out].
    specialize (IH target1).
    destruct (pads_added handler element rest target1) as [[rest' target2] out'].
    destruct IH as [IH1 IH2]. rewrite successful_links_app.
    destruct Hstep as [[[= -> ->] S]|(Lp & Lt & [= -> ->] & S)]; rewrite S.
    + split.
      * intros L. by apply IH1.
      * destruct IH2 as [[S' ->]|(p & Hp & L & S' & ->)]; [by left|right].
        exists p. split; [by right|done].
    + destruct (IH1 eq_refl) as [-> S']. rewrite S'. split.
      * intros L. congruence.
      * right. exists pad. split; [by left|done].
Qed.

(** X16: however many pads [decodebin] announces, each handler links at
    most one of them to its target: if the target already has a peer, none
    is linked and the target stays as it is; otherwise either none is
    linked, or exactly one of the announced pads is, and it is the target's
    peer at the end. *)
Theorem at_most_one_pad_linked (element : string) (pads : list Pad) (target : Pad) :
  (let '(_, target', out) :=
     pads_added (on_pad_added_for_file negotiate) element pads target in
   (is_linked target = true ->
      target' = target /\ successful_links out = []) /\
   (successful_links out = [] /\ target' = target \/
    exists pad, pad ∈ pads /\ is_linked target = false /\
      successful_links out = [(pad_name pad, pad_name target)] /\
      target' = with_peer target (Some (pad_name pad)))) /\
  (let '(_, target', out) :=
     pads_added (on_pad_added negotiate) element pads target in
   (is_linked target = true ->
      target' = target /\ successful_links out = []) /\
   (successful_links out = [] /\ target' = target \/
    exists pad, pad ∈ pads /\ is_linked target = false /\
      successful_links out = [(pad_name pad, pad_name target)] /\
      target' = with_peer target (Some (pad_name pad)))).
Proof.
  split.
  - apply pads_added_one_link. intros e p t.
    pose proof (on_pad_added_for_file_step e p t) as H.
    destruct (on_pad_added_for_file _ _ _ _) as [[r ps] out]. by destruct H.
  - apply pads_added_one_link. intros e p t.
    pose proof (on_pad_added_step e p t) as H.
    by destruct (on_pad_added _ _ _ _) as [[r ps] out].
Qed.

(** X17: a free pad that has no caps.  The task2 handler takes it as not
    video and returns without touching it or printing an error; the task1
    handler raises AttributeError; neither calls the engine's [link]. *)
Theorem pad_without_caps (element : string) (pad target : Pad) :
  is_linked pad = false ->
  queried_caps pad = None -> current_caps pad = None ->
  (exists out,
     on_pad_added_for_file negotiate element pad target
     = (Returned tt, (pad, target), out) /\
     link_calls out = [] /\ stderr_lines out = []) /\
  (exists out,
     on_pad_added negotiate element pad target
     = (Raised (AttributeError
                  "'NoneType' object has no attribute 'get_structure'"),
        (pad, target), out) /\
     link_calls out = []).
Proof.
  intros L Q C. unfold on_pad_added_for_file, on_pad_added. rewrite L, Q, C.
  split; by eexists.
Qed.
End Engine.

End PadEventsFacts.

(* ===================================================================== *)
(** * More on the frame bridge *)
(* ===================================================================== *)

Module BridgeRunsFacts.
Import Gst Bridge BridgeFacts Runs.

Lemma update_caps_last_caps caps g : last_caps (update_caps caps g) = Some caps.
Proof.
  unfold update_caps, is_equal. destruct (last_caps g) as [last|] eqn:E; [|done].
  case_bool_decide; cbn [negb]; [|done]. by subst.
Qed.

Lemma update_caps_configured caps g :
  (forall a c, appsrc g = Some a -> last_caps g = Some c -> src_caps a = Some c) ->
  forall a c, appsrc (update_caps caps g) = Some a ->
              last_caps (update_caps caps g) = Some c -> src_caps a = Some c.
Proof.
  intros J a c. unfold update_caps.
  destruct (match last_caps g with Some _ => _ | None => _ end); [|apply J].
  cbn [appsrc last_caps]. destruct (appsrc g); [|done]. by intros [= <-] [= <-].
Qed.

Section OpenCV.
Variable contour : Type.
Variable red_contours : bytes -> Z * Z * Z -> list contour.
Variable area_gt : contour -> Z -> bool.
Variable boundingRect : contour -> Z * Z * Z * Z.
Variable rectangle :
  bytes -> Z * Z * Z -> Z * Z -> Z * Z -> Z * Z * Z -> Z -> bytes.

Local Abbreviation process :=
  (process_frame_opencv contour red_contours area_gt boundingRect rectangle).
Local Abbreviation new_sample :=
  (on_new_sample contour red_contours area_gt boundingRect rectangle).
Local Abbreviation run :=
  (new_samples contour red_contours area_gt boundingRect rectangle).

Lemma push_processed_globals buffer frame push_ret g :
  appsrc (push_processed buffer frame push_ret g) = appsrc g /\
  last_caps (push_processed buffer frame push_ret g) = last_caps g.
Proof.
  unfold push_processed. destruct (appsrc g) as [a|] eqn:E; [|by rewrite E].
  by destruct (tobytes (mem g) frame).
Qed.

(** One call leaves in [last_caps] the caps of its sample, if it has one
    with caps, and keeps [appsrc] configured with [last_caps]. *)
Lemma on_new_sample_caps pulled map_success push_ret g :
  let g' := snd (new_sample pulled map_success push_ret g) in
  last_caps g'
  = match caps_of (pulled, map_success, push_ret) with
    | Some c => Some c
    | None => last_caps g
    end /\
  ((forall a c, appsrc g = Some a -> last_caps g = Some c -> src_caps a = Some c) ->
   forall a c, appsrc g' = Some a -> last_caps g' = Some c -> src_caps a = Some c).
Proof.
  unfold on_new_sample, caps_of. cbn [fst]. destruct pulled as [sample|]; [|done].
  destruct (sample_caps sample) as [caps|]; [|done].
  destruct map_success; cbn [negb snd appsrc last_caps].
  2:{ split; [apply update_caps_last_caps|apply update_caps_configured]. }
  destruct (np_ndarray _ _ _) as [frame|e]; cbn [snd].
  2:{ split; [apply update_caps_last_caps|apply update_caps_configured]. }
  destruct (copy _ frame) as [frame_copy h1].
  destruct (process h1 frame_copy) as [processed_frame h2]. cbn [snd].
  match goal with
  | |- context [push_processed ?b ?f ?r ?g0] =>
      destruct (push_processed_globals b f r g0) as [-> ->]
  end.
  cbn [appsrc last_caps].
  split; [apply update_caps_last_caps|apply update_caps_configured].
Qed.

Lemma new_samples_caps signals g :
  (forall a c, appsrc g = Some a -> last_caps g = Some c -> src_caps a = Some c) ->
  let g' := snd (run signals g) in
  last_caps g'
  = match last (omap caps_of signals) with
    | Some c => Some c
    | None => last_caps g
    end /\
  (forall a c, appsrc g' = Some a -> last_caps g' = Some c -> src_caps a = Some c).
Proof.
  revert g. induction signals as [|[[pulled map_success] push_ret] rest IH];
    intros g J; [done|].
  cbn [new_samples].
  pose proof (on_new_sample_caps pulled map_success push_ret g) as [L1 J1].
  destruct (new_sample pulled map_success push_ret g) as [r g1]. cbn [snd] in L1, J1.
  specialize (IH g1 (J1 J)).
  destruct (run rest g1) as [rs g2]. cbn [snd] in *.
  destruct IH as [L2 J2]. split; [|done]. rewrite L2, L1.
  change (omap caps_of ((pulled, map_success, push_ret) :: rest))
    with (match caps_of (pulled, map_success, push_ret) with
          | Some c => c :: omap caps_of rest
          | None => omap caps_of rest
          end).
  destruct (caps_of (pulled, map_success, push_ret)) as [c|]; [|done].
  rewrite last_cons. by destruct (last (omap caps_of rest)).
Qed.

(** X18: over any sequence of new-sample signals, starting with
    [last_caps] unset as the module leaves it, [last_caps] ends as the caps
    of the latest sample that had caps (unset if there was none), and an
    existing [appsrc] is then configured with exactly these caps, also
    when a call in between failed or raised. *)
Theorem last_caps_follows_samples (signals : list signal) (g : globals) :
  last_caps g = None ->
  let g' := snd (run signals g) in
  last_caps g' = last (omap caps_of signals) /\
  (forall a c, appsrc g' = Some a -> last_caps g' = Some c ->
               src_caps a = Some c).
Proof.
  intros L0. pose proof (new_samples_caps signals g) as H. cbv zeta in *.
  destruct H as [L J]; [intros a c _; by rewrite L0|].
  split; [|done]. rewrite L, L0. by destruct (last _).
Qed.

(** X19: the answer of ["push-buffer"] is only logged: with any answer the
    callback returns what it returns for OK, and leaves the same memory,
    the same [appsrc] and [last_caps], and the same buffers pushed; and
    whenever a buffer was pushed, the callback returned OK. *)
Theorem refused_push_is_only_logged
    (pulled : option Sample) (map_success : bool) (push_ret : FlowReturn)
    (g : globals) :
  let '(r, g') := new_sample pulled map_success push_ret g in
  let '(r0, g0) := new_sample pulled map_success FLOW_OK g in
  r = r0 /\ mem g' = mem g0 /\ appsrc g' = appsrc g0 /\
  last_caps g' = last_caps g0 /\ pushed (trace g') = pushed (trace g0) /\
  (pushed (trace g') <> pushed (trace g) -> r = Returned FLOW_OK).
Proof.
  unfold on_new_sample. destruct pulled as [sample|]; [|done].
  destruct (sample_caps sample) as [caps|].
  2:{ cbn [mem appsrc last_caps trace]. repeat (split; [done|]).
      unfold pushed. rewrite omap_app. cbn [omap]. by rewrite app_nil_r. }
  destruct map_success; cbn [negb].
  2:{ cbn [mem appsrc last_caps trace]. repeat (split; [done|]).
      unfold pushed. rewrite omap_app. cbn [omap]. rewrite app_nil_r.
      fold (pushed (trace (update_caps caps g))). by rewrite update_caps_pushed. }
  destruct (np_ndarray _ _ _) as [frame|e].
  2:{ repeat (split; [done|]). by rewrite update_caps_pushed. }
  destruct (copy _ frame) as [frame_copy h1].
  destruct (process h1 frame_copy) as [processed_frame h2].
  unfold push_processed. cbn [appsrc mem last_caps trace].
  destruct (appsrc (update_caps caps g)); [|done].
  destruct (tobytes h2 processed_frame) as [data h3].
  cbn [mem appsrc last_caps trace]. repeat (split; [done|]). split; [|done].
  unfold pushed. rewrite !omap_app. cbn [omap flow_ok].
  by destruct (flow_ok push_ret).
Qed.

Lemma process_frame_opencv_no_large h frame :
  Forall (fun c => area_gt c MIN_CONTOUR_AREA = false)
         (red_contours (pixels h frame) (shape frame)) ->
  process h frame = (frame, h).
Proof.
  unfold process_frame_opencv. intros F. f_equal.
  induction F as [|c cs Hc F IH]; [done|]. cbn [fold_left]. by rewrite Hc.
Qed.

(** X20: a frame in which OpenCV finds no red contour larger than
    MIN_CONTOUR_AREA is passed on unchanged: the one buffer pushed refers
    to a block that did not exist before the call, and this block holds
    exactly the first [height * width * 3] bytes of the pulled buffer. *)
Theorem frame_without_red_object_passes_unchanged
    (sample : Sample) (caps : Caps) (push_ret : FlowReturn) (g : globals) :
  sample_caps sample = Some caps ->
  appsrc g <> None ->
  0 <= height caps -> 0 <= width caps ->
  height caps * width caps * 3
    <= Z.of_nat (length (block (mem g) (memory (sample_buffer sample)))) ->
  Forall (fun c => area_gt c MIN_CONTOUR_AREA = false)
         (red_contours
            (take (Z.to_nat (height caps * width caps * 3))
                  (block (mem g) (memory (sample_buffer sample))))
            (height caps, width caps, 3)) ->
  let '(r, g') := new_sample (Some sample) true push_ret g in
  r = Returned FLOW_OK /\
  exists nb,
    pushed (trace g') = pushed (trace g) ++ [nb] /\
    mem g !! memory nb = None /\
    block (mem g') (memory nb)
    = take (Z.to_nat (height caps * width caps * 3))
           (block (mem g) (memory (sample_buffer sample))).
Proof.
  intros Ecaps Hsrc Hh Hw Hlen Hsmall. unfold on_new_sample.
  rewrite Ecaps. cbn [negb]. unfold np_ndarray. rewrite update_caps_mem.
  destruct (Z.ltb_spec (height caps) 0); [lia|].
  destruct (Z.ltb_spec (width caps) 0); [lia|]. cbn [orb].
  destruct (Z.ltb_spec (Z.of_nat (length (block (mem g) (memory (sample_buffer sample)))))
              (height caps * width caps * 3)); [lia|].
  change (3 <? 0) with false. cbv iota.
  set (frame := {| base := memory (sample_buffer sample); rows := height caps;
                   cols := width caps; channels := 3 |}).
  set (n := Z.to_nat (height caps * width caps * 3)) in *.
  set (src := block (mem g) (memory (sample_buffer sample))) in *.
  assert (Epx : pixels (mem g) frame = take n src) by done.
  unfold copy, alloc. rewrite Epx. cbn [rows cols channels].
  set (l1 := fresh (dom (mem g))).
  set (h1 := <[ l1 := take n src ]> (mem g)).
  set (frame_copy := {| base := l1; rows := height caps; cols := width caps;
                        channels := 3 |}).
  assert (Epx1 : pixels h1 frame_copy = take n src).
  { unfold pixels, block, h1. cbn [base]. rewrite lookup_insert_eq. cbn [default id].
    change (size frame_copy) with n. by rewrite take_take, Nat.min_id. }
  assert (Ep : process h1 frame_copy = (frame_copy, h1)).
  { apply process_frame_opencv_no_large. rewrite Epx1. exact Hsmall. }
  change (rows frame) with (height caps). change (cols frame) with (width caps).
  change (channels frame) with 3. fold l1. fold h1. fold frame_copy.
  lazy beta iota zeta. rewrite Ep.
  unfold push_processed. cbn [appsrc mem trace last_caps].
  destruct (appsrc (update_caps caps g)) as [a|] eqn:Ea;
    [|by apply update_caps_appsrc in Ea].
  unfold tobytes, alloc. rewrite Epx1. cbn [memory mem trace]. split; [done|].
  eexists. split; [|split].
  - unfold pushed. rewrite !omap_app. cbn [omap].
    replace (omap _ (if flow_ok push_ret then [] else _)) with (@nil Buffer)
      by (by destruct (flow_ok push_ret)).
    rewrite app_nil_r. fold (pushed (trace (update_caps caps g))).
    by rewrite update_caps_pushed.
  - cbn [memory]. pose proof (is_fresh (dom h1)) as Hf.
    apply not_elem_of_dom. intros Hin. apply Hf. unfold h1.
    rewrite dom_insert. set_solver.
  - cbn [memory]. unfold block. by rewrite lookup_insert_eq.
Qed.

(** X21: a buffer with fewer bytes than [height * width * 3] makes
    [np.ndarray] raise TypeError, and the exception leaves the callback:
    nothing is pushed and memory is as it was, but the caps of the sample
    are already in [last_caps]. *)
Theorem short_buffer_raises
    (sample : Sample) (caps : Caps) (push_ret : FlowReturn) (g : globals) :
  sample_caps sample = Some caps ->
  0 <= height caps -> 0 <= width caps ->
  Z.of_nat (length (block (mem g) (memory (sample_buffer sample))))
    < height caps * width caps * 3 ->
  let '(r, g') := new_sample (Some sample) true push_ret g in
  r = Raised (TypeError "buffer is too small for requested array") /\
  pushed (trace g') = pushed (trace g) /\
  mem g' = mem g /\
  last_caps g' = Some caps.
Proof.
  intros Ecaps Hh Hw Hlen. unfold on_new_sample.
  rewrite Ecaps. cbn [negb]. unfold np_ndarray. rewrite update_caps_mem.
  destruct (Z.ltb_spec (height caps) 0); [lia|].
  destruct (Z.ltb_spec (width caps) 0); [lia|]. cbn [orb].
  destruct (Z.ltb_spec (Z.of_nat (length (block (mem g) (memory (sample_buffer sample)))))
              (height caps * width caps * 3)); [|lia].
  change (3 <? 0) with false. cbv iota.
  split; [done|]. split; [apply update_caps_pushed|].
  split; [apply update_caps_mem|apply update_caps_last_caps].
Qed.
End OpenCV.

End BridgeRunsFacts.

(* ===================================================================== *)
(** * The further properties on concrete inputs *)
(* ===================================================================== *)

Module MoreScenarios.
Import Gst.

Lemma register_then_delete_restores_witness :
  let '(r1, b1) :=
    Discovery.register_broadcast "0a1b2c3d" 0
      (Discovery.request (Discovery.JStr "cam1")
         (Discovery.JStr "rtsp://h:5051/cam1")) ∅ in
  let '(r2, b2) := Discovery.delete_broadcast "cam1" b1 in
  (exists r, r1 = Returned (Discovery.RecordBody r, 201)) /\
  r2 = (Discovery.EmptyBody, 204) /\
  b2 = ∅.
Proof.
  apply (RegistryServiceFacts.register_then_delete_restores
           "0a1b2c3d" 0 "cam1" "rtsp://h:5051/cam1" ∅).
  reflexivity.
Defined.

Lemma untimed_buffer_restarts_estimate_witness :
  let '(rs, w') :=
    FpsProbe.deliver
      (FpsProbe.probe_callback_body FpsProbe.accepting_overlay "Broadcast FPS: ")
      [Some Runs.untimed_buffer; Some (FpsProbe.buffer_at 7)]
      (FpsProbe.mkWorld
         {| FpsProbe.previous_pts := 3; FpsProbe.current_fps := PyFloat.zero |}
         "" []) in
  rs = [Returned PAD_PROBE_OK; Returned PAD_PROBE_OK] /\
  FpsProbe.probe_state w'
  = {| FpsProbe.previous_pts := pts (FpsProbe.buffer_at 7);
       FpsProbe.current_fps := PyFloat.zero |} /\
  exists q, FpsProbe.labels (FpsProbe.trace w')
            = FpsProbe.labels [] ++
              ["Broadcast FPS: " +:+ PyFloat.format_1f q;
               "Broadcast FPS: " +:+ "0.0"].
Proof.
  apply (TapFacts.untimed_buffer_restarts_estimate FpsProbe.accepting_overlay
           "Broadcast FPS: "
           (FpsProbe.mkWorld
              {| FpsProbe.previous_pts := 3;
                 FpsProbe.current_fps := PyFloat.zero |} "" [])
           Runs.untimed_buffer (FpsProbe.buffer_at 7)).
  reflexivity.
Defined.

Lemma pad_without_caps_witness :
  (exists out,
     PadAdded.on_pad_added_for_file PadAdded.accept_all "decoder"
       Runs.capless_pad PadAdded.queue_sink
     = (Returned tt, (Runs.capless_pad, PadAdded.queue_sink), out) /\
     PadAdded.link_calls out = [] /\ PadAdded.stderr_lines out = []) /\
  (exists out,
     PadAdded.on_pad_added PadAdded.accept_all "decoder"
       Runs.capless_pad PadAdded.queue_sink
     = (Raised (AttributeError
                  "'NoneType' object has no attribute 'get_structure'"),
        (Runs.capless_pad, PadAdded.queue_sink), out) /\
     PadAdded.link_calls out = []).
Proof.
  apply (PadEventsFacts.pad_without_caps PadAdded.accept_all "decoder"
           Runs.capless_pad PadAdded.queue_sink); reflexivity.
Defined.

Lemma last_caps_follows_samples_witness :
  let g' :=
    snd (Runs.new_samples unit Bridge.one_contour Bridge.always_large
           Bridge.unit_rect Bridge.paint_all
           [(Some Bridge.pulled_sample, true, FLOW_OK);
            (None, true, FLOW_OK);
            (Some Runs.short_sample, true, FLOW_ERROR)]
           Bridge.initial_globals) in
  Bridge.last_caps g'
  = last (omap Runs.caps_of
            [(Some Bridge.pulled_sample, true, FLOW_OK);
             (None, true, FLOW_OK);
             (Some Runs.short_sample, true, FLOW_ERROR)]) /\
  (forall a c, Bridge.appsrc g' = Some a -> Bridge.last_caps g' = Some c ->
               Bridge.src_caps a = Some c).
Proof.
  apply (BridgeRunsFacts.last_caps_follows_samples unit Bridge.one_contour
           Bridge.always_large Bridge.unit_rect Bridge.paint_all
           [(Some Bridge.pulled_sample, true, FLOW_OK);
            (None, true, FLOW_OK);
            (Some Runs.short_sample, true, FLOW_ERROR)]
           Bridge.initial_globals).
  reflexivity.
Defined.

Lemma frame_without_red_object_passes_unchanged_witness :
  let '(r, g') :=
    Bridge.on_new_sample unit Runs.no_contour Bridge.always_large
      Bridge.unit_rect Bridge.paint_all (Some Bridge.pulled_sample) true
      FLOW_OK Bridge.initial_globals in
  r = Returned FLOW_OK /\
  exists nb,
    Bridge.pushed (Bridge.trace g')
    = Bridge.pushed (Bridge.trace Bridge.initial_globals) ++ [nb] /\
    Bridge.mem Bridge.initial_globals !! memory nb = None /\
    Bridge.block (Bridge.mem g') (memory nb)
    = take (Z.to_nat (height Bridge.bgr_caps * width Bridge.bgr_caps * 3))
        (Bridge.block (Bridge.mem Bridge.initial_globals)
           (memory (Bridge.sample_buffer Bridge.pulled_sample))).
Proof.
  apply (BridgeRunsFacts.frame_without_red_object_passes_unchanged unit
           Runs.no_contour Bridge.always_large Bridge.unit_rect Bridge.paint_all
           Bridge.pulled_sample Bridge.bgr_caps FLOW_OK Bridge.initial_globals).
  - reflexivity.
  - discriminate.
  - cbn. lia.
  - cbn. lia.
  - vm_compute. discriminate.
  - exact (List.Forall_nil _).
Defined.

Lemma short_buffer_raises_witness :
  let '(r, g') :=
    Bridge.on_new_sample unit Bridge.one_contour Bridge.always_large
      Bridge.unit_rect Bridge.paint_all (Some Runs.short_sample) true
      FLOW_OK Bridge.initial_globals in
  r = Raised (TypeError "buffer is too small for requested array") /\
  Bridge.pushed (Bridge.trace g')
  = Bridge.pushed (Bridge.trace Bridge.initial_globals) /\
  Bridge.mem g' = Bridge.mem Bridge.initial_globals /\
  Bridge.last_caps g' = Some Runs.square_caps.
Proof.
  apply (BridgeRunsFacts.short_buffer_raises unit Bridge.one_contour
           Bridge.always_large Bridge.unit_rect Bridge.paint_all
           Runs.short_sample Runs.square_caps FLOW_OK Bridge.initial_globals).
  - reflexivity.
  - cbn. lia.
  - cbn. lia.
  - vm_compute. reflexivity.
Defined.

End MoreScenarios.
